(** * GarageMunky: parameter monitoring, session engine and trouble-code merge

    A shallow embedding of [vehicle_monitoring_system.py] (class
    [VehicleMonitor]) and of [merge_dtc_databases] from [dtc_parser.py],
    with the properties the design document states about them.

    Conventions of the embedding.
    - Python numbers that may be floats (sensor values, thresholds, polling
      rates, [time.time()], durations) are rationals [Q]; only their order
      and differences are used.
    - A [datetime] is an integer number of microseconds [Z]; a [timedelta] is
      the difference of two of them and [total_seconds()] divides by 10^6.
    - Python dictionaries are [gmap string _]; subscripting [d[k]] on a
      missing key raises [KeyError k].
    - Methods of [VehicleMonitor] are computations in a state-and-exception
      monad over [World]: the object, what was printed, the store the
      document is saved to and the requests made to the value source.  A
      raised exception keeps the mutations made before it. *)

From Stdlib Require Import Ascii String QArith Lqa.
From stdpp Require Import gmap strings list fin_maps.

Open Scope string_scope.

(** ** Data model *)

(** Status of a sample: the strings ['unknown'], ['normal'], ['warning'],
    ['critical']. *)
Inductive status := unknown | normal | warning | critical.

Global Instance status_eq_dec : EqDecision status.
Proof. solve_decision. Defined.

(** One entry of [MONITORING_PARAMETERS[category][param]]. *)
Record ParamInfo := {
  pi_pid : string;
  pi_name : string;
  pi_unit : string;
  min_normal : option Q;
  max_normal : option Q;
  warning_threshold : option Q;
  critical_threshold : option Q;
  pi_priority : string;
  polling_rate : Q;
  pi_description : string
}.

(** One entry of [MONITORING_PROFILES]. *)
Record Profile := {
  pr_name : string;
  pr_description : string;
  pr_parameters : list string;
  polling_interval : Q;
  alert_threshold : status
}.

(** The text of a timestamp field: the empty string or the [isoformat()]
    of a datetime.  [datetime.fromisoformat] inverts the latter and raises
    [ValueError] on the former. *)
Inductive isostring := EmptyStr | Iso (t : Z).

(** [self.current_values[param_path]]. *)
Record CurrentValue := {
  cv_value : option Q;
  cv_unit : string;
  cv_timestamp : option Z;
  cv_status : status
}.

(** An element of [self.historical_data[param_path]]. *)
Record HistoricalSample := {
  hs_value : Q;
  hs_timestamp : Z
}.

Record Alert := {
  al_parameter : string;
  al_status : status;
  al_value : Q;
  al_timestamp : Z;
  al_acknowledged : bool
}.

(** [monitoring_data['current_session']['parameters'][param_path]]. *)
Record SessionParam := {
  sp_name : string;
  sp_unit : string;
  sp_values : list HistoricalSample;
  sp_status : status
}.

Record Session := {
  start_time : isostring;
  duration : Q;
  parameters : gmap string SessionParam;
  ses_alerts : list Alert;
  dtcs : list string
}.

Record VehicleInfo := {
  vin : string;
  make : string;
  model : string;
  year : string;
  engine : string
}.

Record Metadata := {
  vehicle_info : VehicleInfo;
  monitoring_start_time : isostring;
  md_active_profile : string;
  total_alerts : nat;
  total_dtcs : nat
}.

(** [self.monitoring_data]: the persisted document. *)
Record MonitoringData := {
  metadata : Metadata;
  current_session : Session;
  historical_sessions : list Session
}.

(** The attributes of a [VehicleMonitor] instance.  [obd_interface] is the
    truth value of the attribute (an interface object or [None]). *)
Record VehicleMonitor := {
  obd_interface : bool;
  active_profile : string;
  monitoring_active : bool;
  current_values : gmap string CurrentValue;
  historical_data : gmap string (list HistoricalSample);
  alerts : list Alert;
  last_poll_time : gmap string Q;
  monitoring_data : MonitoringData
}.

(** A printed line.  The f-string of [stop_monitoring] formats a float, so
    it is kept with its argument. *)
Inductive output :=
| Text (s : string)
| StoppedText (d : Q).

(** The persistence store: whether a write can succeed, the document last
    written, and every document handed to [save_monitoring_data], oldest
    first. *)
Record Storage := {
  available : bool;
  persisted : option MonitoringData;
  save_calls : list MonitoringData
}.

(** A request to the value source: [self.get_parameter_from_obd(pid)] or
    [self.simulate_parameter_value(param_path)]. *)
Inductive acquisition :=
| FromObd (pid : string)
| Simulated (param_path : string).

Record World := {
  self : VehicleMonitor;
  stdout : list output;
  storage : Storage;
  acquired : list (string * acquisition)
}.

(** ** The static tables *)

Definition mkparam (pid nm un : string) (lo hi wa cr : option Q)
    (prio : string) (rate : Q) (descr : string) : ParamInfo :=
  {| pi_pid := pid; pi_name := nm; pi_unit := un;
     min_normal := lo; max_normal := hi;
     warning_threshold := wa; critical_threshold := cr;
     pi_priority := prio; polling_rate := rate; pi_description := descr |}.

Definition ENGINE_PARAMETERS : gmap string ParamInfo :=
  list_to_map [
    ("RPM", mkparam "010C" "Engine RPM" "rpm" (Some 600) (Some 6500)
              (Some 6000) (Some 6500) "high" 1 "Engine revolutions per minute");
    ("LOAD", mkparam "0104" "Engine Load" "%" (Some 0) (Some 85)
              (Some 85) (Some 95) "medium" 2 "Calculated engine load value");
    ("COOLANT_TEMP", mkparam "0105" "Coolant Temperature" "°C" (Some 75) (Some 105)
              (Some 105) (Some 115) "high" 5 "Engine coolant temperature");
    ("INTAKE_TEMP", mkparam "010F" "Intake Air Temperature" "°C" (Some (-10)) (Some 70)
              (Some 70) (Some 85) "low" 10 "Intake air temperature");
    ("MAF", mkparam "0110" "MAF Air Flow Rate" "g/s" (Some 0) (Some 250)
              None None "low" 5 "Mass air flow sensor air flow rate");
    ("THROTTLE", mkparam "0111" "Throttle Position" "%" (Some 0) (Some 100)
              None None "medium" 2 "Absolute throttle position")
  ]%Q.

Definition VEHICLE_PARAMETERS : gmap string ParamInfo :=
  list_to_map [
    ("SPEED", mkparam "010D" "Vehicle Speed" "km/h" (Some 0) (Some 200)
              None None "high" 1 "Vehicle speed");
    ("RUNTIME", mkparam "011F" "Run Time" "seconds" (Some 0) None
              None None "low" 60 "Run time since engine start")
  ]%Q.

Definition FUEL_PARAMETERS : gmap string ParamInfo :=
  list_to_map [
    ("FUEL_PRESSURE", mkparam "010A" "Fuel Pressure" "kPa" (Some 350) (Some 500)
              (Some 300) (Some 250) "medium" 5 "Fuel pressure");
    ("FUEL_LEVEL", mkparam "012F" "Fuel Level" "%" (Some 10) (Some 100)
              (Some 10) (Some 5) "medium" 30 "Fuel tank level input");
    ("FUEL_RATE", mkparam "015E" "Fuel Rate" "L/h" (Some 0) (Some 30)
              None None "low" 5 "Engine fuel rate")
  ]%Q.

Definition EMISSIONS_PARAMETERS : gmap string ParamInfo :=
  list_to_map [
    ("O2_VOLTAGE", mkparam "0114" "O2 Sensor Voltage" "V" (Some 0) (Some (11 # 10))
              None None "low" 5 "O2 sensor voltage");
    ("CATALYST_TEMP", mkparam "013C" "Catalyst Temperature" "°C" (Some 300) (Some 900)
              (Some 900) (Some 950) "medium" 10 "Catalyst temperature")
  ]%Q.

Definition MONITORING_PARAMETERS : gmap string (gmap string ParamInfo) :=
  list_to_map [
    ("ENGINE_PARAMETERS", ENGINE_PARAMETERS);
    ("VEHICLE_PARAMETERS", VEHICLE_PARAMETERS);
    ("FUEL_PARAMETERS", FUEL_PARAMETERS);
    ("EMISSIONS_PARAMETERS", EMISSIONS_PARAMETERS)
  ].

Definition MONITORING_PROFILES : gmap string Profile :=
  list_to_map [
    ("STANDARD",
     {| pr_name := "Standard Monitoring";
        pr_description := "Basic vehicle monitoring for everyday driving";
        pr_parameters := [
          "ENGINE_PARAMETERS.RPM";
          "ENGINE_PARAMETERS.COOLANT_TEMP";
          "VEHICLE_PARAMETERS.SPEED";
          "FUEL_PARAMETERS.FUEL_LEVEL" ];
        polling_interval := 5;
        alert_threshold := warning |});
    ("PERFORMANCE",
     {| pr_name := "Performance Monitoring";
        pr_description := "Enhanced monitoring for performance driving";
        pr_parameters := [
          "ENGINE_PARAMETERS.RPM";
          "ENGINE_PARAMETERS.LOAD";
          "ENGINE_PARAMETERS.COOLANT_TEMP";
          "ENGINE_PARAMETERS.INTAKE_TEMP";
          "ENGINE_PARAMETERS.MAF";
          "ENGINE_PARAMETERS.THROTTLE";
          "VEHICLE_PARAMETERS.SPEED";
          "FUEL_PARAMETERS.FUEL_PRESSURE";
          "FUEL_PARAMETERS.FUEL_RATE";
          "EMISSIONS_PARAMETERS.CATALYST_TEMP" ];
        polling_interval := 1;
        alert_threshold := warning |});
    ("ECONOMY",
     {| pr_name := "Economy Monitoring";
        pr_description := "Monitoring focused on fuel efficiency";
        pr_parameters := [
          "ENGINE_PARAMETERS.RPM";
          "ENGINE_PARAMETERS.LOAD";
          "ENGINE_PARAMETERS.THROTTLE";
          "VEHICLE_PARAMETERS.SPEED";
          "FUEL_PARAMETERS.FUEL_LEVEL";
          "FUEL_PARAMETERS.FUEL_RATE" ];
        polling_interval := 10;
        alert_threshold := warning |});
    ("DIAGNOSTIC",
     {| pr_name := "Diagnostic Monitoring";
        pr_description := "Comprehensive monitoring for diagnosing issues";
        pr_parameters := [
          "ENGINE_PARAMETERS.RPM";
          "ENGINE_PARAMETERS.LOAD";
          "ENGINE_PARAMETERS.COOLANT_TEMP";
          "ENGINE_PARAMETERS.INTAKE_TEMP";
          "ENGINE_PARAMETERS.MAF";
          "ENGINE_PARAMETERS.THROTTLE";
          "VEHICLE_PARAMETERS.SPEED";
          "VEHICLE_PARAMETERS.RUNTIME";
          "FUEL_PARAMETERS.FUEL_PRESSURE";
          "FUEL_PARAMETERS.FUEL_LEVEL";
          "FUEL_PARAMETERS.FUEL_RATE";
          "EMISSIONS_PARAMETERS.O2_VOLTAGE";
          "EMISSIONS_PARAMETERS.CATALYST_TEMP" ];
        polling_interval := 2;
        alert_threshold := warning |})
  ]%Q.

(** ** The state-and-exception monad *)

Inductive exn :=
| KeyError (key : string)
| ValueError (msg : string).

Inductive outcome (A : Type) :=
| Returned (a : A)
| Raised (e : exn).
Arguments Returned {A} a.
Arguments Raised {A} e.

Definition M (A : Type) : Type := World → outcome A * World.

Definition ret {A} (a : A) : M A := λ w, (Returned a, w).
Definition raise {A} (e : exn) : M A := λ w, (Raised e, w).
Definition bind {A B} (m : M A) (k : A → M B) : M B :=
  λ w, match m w with
       | (Returned a, w') => k a w'
       | (Raised e, w') => (Raised e, w')
       end.

Global Instance M_ret : MRet M := @ret.
Global Instance M_bind : MBind M := λ A B k m, bind m k.

Definition get_self : M VehicleMonitor := λ w, (Returned (self w), w).
Definition with_self (f : VehicleMonitor → VehicleMonitor) (w : World) : World :=
  {| self := f (self w); stdout := stdout w;
     storage := storage w; acquired := acquired w |}.
Definition modify_self (f : VehicleMonitor → VehicleMonitor) : M () :=
  λ w, (Returned (), with_self f w).

(** [print(...)]. *)
Definition print (o : output) : M () :=
  λ w, (Returned (),
        {| self := self w; stdout := stdout w ++ [o];
           storage := storage w; acquired := acquired w |}).

(** [d[k]] on a dictionary. *)
Definition subscript {V} (d : gmap string V) (k : string) : M V :=
  match d !! k with
  | Some v => ret v
  | None => raise (KeyError k)
  end.

(** [for x in xs: body(x)]. *)
Fixpoint for_each {A} (xs : list A) (body : A → M ()) : M () :=
  match xs with
  | [] => ret ()
  | x :: xs' => body x;; for_each xs' body
  end.

(** ** Strings *)

(** [s.split(sep)] for a one-character separator. *)
Fixpoint split (sep : Ascii.ascii) (s : string) : list string :=
  match s with
  | EmptyString => [EmptyString]
  | String c s' =>
      if Ascii.eqb c sep then EmptyString :: split sep s'
      else match split sep s' with
           | [] => [String c EmptyString]
           | h :: t => String c h :: t
           end
  end.

(** [category, param = xs]: unpacking into exactly two names. *)
Definition unpack2 (xs : list string) : M (string * string) :=
  match xs with
  | [a; b] => mret (a, b)
  | [] => raise (ValueError "not enough values to unpack (expected 2, got 0)")
  | [_] => raise (ValueError "not enough values to unpack (expected 2, got 1)")
  | _ => raise (ValueError "too many values to unpack (expected 2)")
  end.

(** ** Record updates *)

Definition with_active_profile (p : string) (s : VehicleMonitor) :=
  {| obd_interface := obd_interface s; active_profile := p;
     monitoring_active := monitoring_active s;
     current_values := current_values s; historical_data := historical_data s;
     alerts := alerts s; last_poll_time := last_poll_time s;
     monitoring_data := monitoring_data s |}.

Definition with_monitoring_active (b : bool) (s : VehicleMonitor) :=
  {| obd_interface := obd_interface s; active_profile := active_profile s;
     monitoring_active := b;
     current_values := current_values s; historical_data := historical_data s;
     alerts := alerts s; last_poll_time := last_poll_time s;
     monitoring_data := monitoring_data s |}.

Definition with_current_values (f : gmap string CurrentValue → gmap string CurrentValue)
    (s : VehicleMonitor) :=
  {| obd_interface := obd_interface s; active_profile := active_profile s;
     monitoring_active := monitoring_active s;
     current_values := f (current_values s); historical_data := historical_data s;
     alerts := alerts s; last_poll_time := last_poll_time s;
     monitoring_data := monitoring_data s |}.

Definition with_historical_data
    (f : gmap string (list HistoricalSample) → gmap string (list HistoricalSample))
    (s : VehicleMonitor) :=
  {| obd_interface := obd_interface s; active_profile := active_profile s;
     monitoring_active := monitoring_active s;
     current_values := current_values s; historical_data := f (historical_data s);
     alerts := alerts s; last_poll_time := last_poll_time s;
     monitoring_data := monitoring_data s |}.

Definition with_alerts (f : list Alert → list Alert) (s : VehicleMonitor) :=
  {| obd_interface := obd_interface s; active_profile := active_profile s;
     monitoring_active := monitoring_active s;
     current_values := current_values s; historical_data := historical_data s;
     alerts := f (alerts s); last_poll_time := last_poll_time s;
     monitoring_data := monitoring_data s |}.

Definition with_last_poll_time (f : gmap string Q → gmap string Q) (s : VehicleMonitor) :=
  {| obd_interface := obd_interface s; active_profile := active_profile s;
     monitoring_active := monitoring_active s;
     current_values := current_values s; historical_data := historical_data s;
     alerts := alerts s; last_poll_time := f (last_poll_time s);
     monitoring_data := monitoring_data s |}.

Definition with_monitoring_data (f : MonitoringData → MonitoringData) (s : VehicleMonitor) :=
  {| obd_interface := obd_interface s; active_profile := active_profile s;
     monitoring_active := monitoring_active s;
     current_values := current_values s; historical_data := historical_data s;
     alerts := alerts s; last_poll_time := last_poll_time s;
     monitoring_data := f (monitoring_data s) |}.

Definition with_metadata (f : Metadata → Metadata) (d : MonitoringData) :=
  {| metadata := f (metadata d); current_session := current_session d;
     historical_sessions := historical_sessions d |}.

Definition with_current_session (f : Session → Session) (d : MonitoringData) :=
  {| metadata := metadata d; current_session := f (current_session d);
     historical_sessions := historical_sessions d |}.

Definition with_historical_sessions (f : list Session → list Session) (d : MonitoringData) :=
  {| metadata := metadata d; current_session := current_session d;
     historical_sessions := f (historical_sessions d) |}.

Definition with_vehicle_info (v : VehicleInfo) (m : Metadata) :=
  {| vehicle_info := v; monitoring_start_time := monitoring_start_time m;
     md_active_profile := md_active_profile m;
     total_alerts := total_alerts m; total_dtcs := total_dtcs m |}.

Definition with_monitoring_start_time (t : isostring) (m : Metadata) :=
  {| vehicle_info := vehicle_info m; monitoring_start_time := t;
     md_active_profile := md_active_profile m;
     total_alerts := total_alerts m; total_dtcs := total_dtcs m |}.

Definition with_md_active_profile (p : string) (m : Metadata) :=
  {| vehicle_info := vehicle_info m;
     monitoring_start_time := monitoring_start_time m;
     md_active_profile := p;
     total_alerts := total_alerts m; total_dtcs := total_dtcs m |}.

Definition with_total_alerts (f : nat → nat) (m : Metadata) :=
  {| vehicle_info := vehicle_info m;
     monitoring_start_time := monitoring_start_time m;
     md_active_profile := md_active_profile m;
     total_alerts := f (total_alerts m); total_dtcs := total_dtcs m |}.

Definition with_duration (d : Q) (c : Session) :=
  {| start_time := start_time c; duration := d; parameters := parameters c;
     ses_alerts := ses_alerts c; dtcs := dtcs c |}.

Definition with_parameters (f : gmap string SessionParam → gmap string SessionParam)
    (c : Session) :=
  {| start_time := start_time c; duration := duration c;
     parameters := f (parameters c);
     ses_alerts := ses_alerts c; dtcs := dtcs c |}.

Definition with_ses_alerts (f : list Alert → list Alert) (c : Session) :=
  {| start_time := start_time c; duration := duration c;
     parameters := parameters c;
     ses_alerts := f (ses_alerts c); dtcs := dtcs c |}.

(** The dictionary literal both [initialize_monitoring_data] and
    [stop_monitoring] assign to ['current_session']. *)
Definition empty_session : Session :=
  {| start_time := EmptyStr; duration := 0; parameters := ∅;
     ses_alerts := []; dtcs := [] |}.

(** The document [initialize_monitoring_data] builds. *)
Definition initial_monitoring_data (profile : string) : MonitoringData :=
  {| metadata :=
       {| vehicle_info := {| vin := ""; make := ""; model := ""; year := ""; engine := "" |};
          monitoring_start_time := EmptyStr;
          md_active_profile := profile;
          total_alerts := 0; total_dtcs := 0 |};
     current_session := empty_session;
     historical_sessions := [] |}.

(** ** Status evaluator *)

Inductive direction := Above | Below.

(** The side on which threshold [t] lies: below the normal range when it is
    under [min_normal], above it otherwise (a threshold equal to
    [max_normal], as for the engine speed, is on the high side). *)
Definition side (d : ParamInfo) (t : Q) : direction :=
  match min_normal d with
  | Some lo => if Qle_bool lo t then Above else Below
  | None => Above
  end.

(** The direction in which the thresholds of [d] are crossed, inferred from
    the critical threshold, or from the warning threshold when there is no
    critical one. *)
Definition threshold_direction (d : ParamInfo) : direction :=
  match critical_threshold d, warning_threshold d with
  | Some c, _ => side d c
  | None, Some w => side d w
  | None, None => Above
  end.

(** [crossed d t v]: value [v] has reached threshold [t] of [d]. *)
Definition crossed (d : ParamInfo) (t v : Q) : bool :=
  match threshold_direction d with
  | Above => Qle_bool t v
  | Below => Qle_bool v t
  end.

Definition defined_and_crossed (d : ParamInfo) (t : option Q) (v : Q) : bool :=
  match t with
  | Some t => crossed d t v
  | None => false
  end.

(** [v] lies within [[min_normal, max_normal]]; an absent bound is open. *)
Definition in_normal_range (d : ParamInfo) (v : Q) : bool :=
  match min_normal d with Some lo => Qle_bool lo v | None => true end &&
  match max_normal d with Some hi => Qle_bool v hi | None => true end.

(** Modelled from the spec: the body of [determine_parameter_status] is not
    part of the available source (the file ends inside [update_parameters]).
    This is the algorithm of the design document, section 4.3, in its order:
    absent value, critical threshold, warning threshold, normal range,
    out-of-range fallback. *)
Definition evaluate_status (value : option Q) (d : ParamInfo) : status :=
  match value with
  | None => unknown
  | Some v =>
      if defined_and_crossed d (critical_threshold d) v then critical
      else if defined_and_crossed d (warning_threshold d) v then warning
      else if in_normal_range d v then normal
      else warning
  end.

(** ** Persistence *)

Definition with_storage (f : Storage → Storage) (w : World) : World :=
  {| self := self w; stdout := stdout w; storage := f (storage w);
     acquired := acquired w |}.

(** Modelled from the spec: the body of [save_monitoring_data] is not part of
    the available source.  Section 4.6 of the design document: [save] writes
    the document; an I/O failure is reported and is not fatal, the in-memory
    document stays authoritative. *)
Definition save_monitoring_data : M () :=
  λ w,
    let doc := monitoring_data (self w) in
    if available (storage w) then
      (Returned (),
       with_storage (λ st, {| available := available st;
                              persisted := Some doc;
                              save_calls := save_calls st ++ [doc] |}) w)
    else
      print (Text "PersistenceUnavailable")
        (with_storage (λ st, {| available := available st;
                                persisted := persisted st;
                                save_calls := save_calls st ++ [doc] |}) w).

(** ** Severity and the alert manager *)

Definition severity (s : status) : nat :=
  match s with
  | unknown => 0
  | normal => 1
  | warning => 2
  | critical => 3
  end.

(** Modelled from the spec: the alert manager is not part of the available
    source.  Section 4.4 of the design document: a classified sample raises a
    new alert iff its severity is at least the profile's alert threshold;
    [unknown] never raises. *)
Definition raises_alert (threshold st : status) : bool :=
  match st with
  | unknown => false
  | _ => Nat.leb (severity threshold) (severity st)
  end.

(** ** The methods of [VehicleMonitor] *)

(** [datetime.fromisoformat(s)]. *)
Definition fromisoformat (s : isostring) : M Z :=
  match s with
  | Iso t => mret t
  | EmptyStr => raise (ValueError "Invalid isoformat string: ''")
  end.

(** [timedelta.total_seconds()] of a difference in microseconds. *)
Definition total_seconds (delta : Z) : Q := Qmake delta 1000000.

(** What the outside yields during one call of [update_parameters]: the
    reading of [time.time()], the reading of [datetime.now()] when
    [param_path] is sampled, and the answer of the value source
    ([None] when the acquisition fails). *)
Record Readings := {
  time_time : Q;
  datetime_now : string → Z;
  read_value : acquisition → option Q
}.

(** Asking the value source for the parameter [param_path]; the request is
    logged in [acquired] together with the parameter it is made for. *)
Definition acquire (r : Readings) (param_path : string) (a : acquisition)
    : M (option Q) :=
  λ w, (Returned (read_value r a),
        {| self := self w; stdout := stdout w; storage := storage w;
           acquired := acquired w ++ [(param_path, a)] |}).

Section Engine.

(** The two module-level tables. *)
Variable PARAMETERS : gmap string (gmap string ParamInfo).
Variable PROFILES : gmap string Profile.

(** [category, param = param_path.split('.')] followed by
    [MONITORING_PARAMETERS[category][param]]. *)
Definition param_info_of (param_path : string) : M ParamInfo :=
  '(category, param) ← unpack2 (split "." param_path);
  by_category ← subscript PARAMETERS category;
  subscript by_category param.

Definition set_vehicle_info (vin make model year engine : string) : M () :=
  modify_self (with_monitoring_data (with_metadata (with_vehicle_info
    {| vin := vin; make := make; model := model; year := year;
       engine := engine |})));;
  save_monitoring_data.

(** The body of the loop of [start_monitoring] for one [param_path]. *)
Definition initialize_parameter (param_path : string) : M () :=
  param_info ← param_info_of param_path;
  modify_self (with_current_values (<[param_path :=
    {| cv_value := None; cv_unit := pi_unit param_info;
       cv_timestamp := None; cv_status := unknown |}]>));;
  modify_self (with_historical_data (<[param_path := []]>));;
  modify_self (with_last_poll_time (<[param_path := 0%Q]>));;
  modify_self (with_monitoring_data (with_current_session
    (with_parameters (<[param_path :=
      {| sp_name := pi_name param_info; sp_unit := pi_unit param_info;
         sp_values := []; sp_status := unknown |}]>)))).

(** [now_meta] and [now_session] are the two readings of
    [datetime.now()], in program order. *)
Definition start_monitoring (profile : string) (now_meta now_session : Z)
    : M bool :=
  s ← get_self;
  if monitoring_active s then
    print (Text "Monitoring is already active. Stop monitoring first.");;
    mret false
  else
    modify_self (with_active_profile profile);;
    modify_self (with_monitoring_active true);;
    modify_self (with_monitoring_data (with_metadata
      (with_md_active_profile profile)));;
    modify_self (with_monitoring_data (with_metadata
      (with_monitoring_start_time (Iso now_meta))));;
    modify_self (with_monitoring_data (with_current_session (λ _,
      {| start_time := Iso now_session; duration := 0; parameters := ∅;
         ses_alerts := []; dtcs := [] |})));;
    modify_self (with_current_values (λ _, ∅));;
    modify_self (with_historical_data (λ _, ∅));;
    modify_self (with_alerts (λ _, []));;
    modify_self (with_last_poll_time (λ _, ∅));;
    prof ← subscript PROFILES profile;
    for_each (pr_parameters prof) initialize_parameter;;
    prof' ← subscript PROFILES profile;
    print (Text ("Started monitoring with profile: " ++ pr_name prof'));;
    save_monitoring_data;;
    mret true.

(** [now] is the reading of [datetime.now()]. *)
Definition stop_monitoring (now : Z) : M bool :=
  s ← get_self;
  if negb (monitoring_active s) then
    print (Text "Monitoring is not active.");;
    mret false
  else
    start ← fromisoformat (start_time (current_session (monitoring_data s)));
    let end_time := now in
    let duration := total_seconds (end_time - start) in
    modify_self (with_monitoring_data (with_current_session
      (with_duration duration)));;
    modify_self (with_monitoring_data (λ d,
      with_historical_sessions (λ h, (h ++ [current_session d])%list) d));;
    modify_self (with_monitoring_data (with_current_session (λ _,
      empty_session)));;
    modify_self (with_monitoring_active false);;
    print (StoppedText duration);;
    save_monitoring_data;;
    mret true.

(** Modelled from the spec: the body of [determine_parameter_status] is
    missing from the available source; only its call
    [self.determine_parameter_status(param_path, value)] is there.  It
    resolves the definition of [param_path] and applies [evaluate_status]. *)
Definition determine_parameter_status (param_path : string)
    (value : option Q) : M status :=
  param_info ← param_info_of param_path;
  mret (evaluate_status value param_info).

(** Modelled from the spec: the available source ends inside the statement
    [self.historical_data[param_path].append]; the rest of the loop body is
    missing.  Section 4.2 (d) of the design document: the sample is
    appended to the history, and (section 2) to the current session. *)
Definition record_sample (param_path : string) (value : Q) (ts : Z)
    (st : status) : M () :=
  let sample := {| hs_value := value; hs_timestamp := ts |} in
  s ← get_self;
  history ← subscript (historical_data s) param_path;
  modify_self (with_historical_data
    (<[param_path := (history ++ [sample])%list]>));;
  s ← get_self;
  entry ← subscript (parameters (current_session (monitoring_data s)))
                    param_path;
  modify_self (with_monitoring_data (with_current_session (with_parameters
    (<[param_path :=
        {| sp_name := sp_name entry; sp_unit := sp_unit entry;
           sp_values := (sp_values entry ++ [sample])%list;
           sp_status := st |}]>)))).

(** Modelled from the spec: the alert manager is missing from the available
    source.  Section 4.4 of the design document: every qualifying sample
    produces a new alert record, and the total-alert counter of the
    document is incremented once per raised alert. *)
Definition alert_manager (param_path : string) (value : Q) (ts : Z)
    (st : status) : M () :=
  s ← get_self;
  prof ← subscript PROFILES (active_profile s);
  if raises_alert (alert_threshold prof) st then
    let a := {| al_parameter := param_path; al_status := st;
                al_value := value; al_timestamp := ts;
                al_acknowledged := false |} in
    modify_self (with_alerts (λ l, (l ++ [a])%list));;
    modify_self (with_monitoring_data (with_current_session
      (with_ses_alerts (λ l, (l ++ [a])%list))));;
    modify_self (with_monitoring_data (with_metadata
      (with_total_alerts S)))
  else mret ().

(** Whether [param_path] is due:
    [current_time - self.last_poll_time.get(param_path, 0) >=
     param_info['polling_rate']]. *)
Definition due (s : VehicleMonitor) (current_time : Q) (param_path : string)
    (param_info : ParamInfo) : bool :=
  Qle_bool (polling_rate param_info)
           (current_time - default 0%Q (last_poll_time s !! param_path)).

(** The body of the loop of [update_parameters] for one [param_path].  The
    source is available up to the assignment of
    [self.current_values[param_path]]; the two calls after it stand for the
    missing rest (see [record_sample] and [alert_manager]); a failed
    acquisition is not added to the history. *)
Definition update_parameter (r : Readings) (param_path : string) : M () :=
  param_info ← param_info_of param_path;
  s ← get_self;
  if due s (time_time r) param_path param_info then
    modify_self (with_last_poll_time (<[param_path := time_time r]>));;
    value ← (if obd_interface s
             then acquire r param_path (FromObd (pi_pid param_info))
             else acquire r param_path (Simulated param_path));
    let ts := datetime_now r param_path in
    st ← determine_parameter_status param_path value;
    modify_self (with_current_values (<[param_path :=
      {| cv_value := value; cv_unit := pi_unit param_info;
         cv_timestamp := Some ts; cv_status := st |}]>));;
    match value with
    | Some v => record_sample param_path v ts st;;
                alert_manager param_path v ts st
    | None => mret ()
    end
  else mret ().

(** The part after the loop is missing from the available source; as in the
    sibling methods it saves the document and returns [True]. *)
Definition update_parameters (r : Readings) : M bool :=
  s ← get_self;
  if negb (monitoring_active s) then
    print (Text "Monitoring is not active.");;
    mret false
  else
    prof ← subscript PROFILES (active_profile s);
    for_each (pr_parameters prof) (update_parameter r);;
    save_monitoring_data;;
    mret true.

End Engine.

(** The attributes [__init__] sets and the document
    [initialize_monitoring_data] builds ([load_databases] only fills the
    trouble-code tables, which the engine does not use below). *)
Definition new_monitor (obd : bool) (profile : string) : VehicleMonitor :=
  {| obd_interface := obd; active_profile := profile;
     monitoring_active := false;
     current_values := ∅; historical_data := ∅; alerts := [];
     last_poll_time := ∅;
     monitoring_data := initial_monitoring_data profile |}.

(** The world right after [VehicleMonitor(obd, profile)] on a working store:
    the constructor has saved the initial document. *)
Definition new_world (obd : bool) (profile : string) : World :=
  {| self := new_monitor obd profile; stdout := [];
     storage := {| available := true;
                   persisted := Some (initial_monitoring_data profile);
                   save_calls := [initial_monitoring_data profile] |};
     acquired := [] |}.

Definition Idle (w : World) : Prop := monitoring_active (self w) = false.
Definition Monitoring (w : World) : Prop := monitoring_active (self w) = true.

(** ** Merging the trouble-code databases ([dtc_parser.py]) *)

(** The dictionary the extractors build for one code. *)
Record DtcInfo := {
  code : string;
  title : string;
  description : string;
  possible_causes : list string;
  diagnostic_aids : string;
  source : string
}.

(** Truth value of a Python string: the empty string is false. *)
Definition truthy (s : string) : bool := negb (String.eqb s "").

Definition with_description (d : string) (i : DtcInfo) : DtcInfo :=
  {| code := code i; title := title i; description := d;
     possible_causes := possible_causes i;
     diagnostic_aids := diagnostic_aids i; source := source i |}.

Definition with_source (s : string) (i : DtcInfo) : DtcInfo :=
  {| code := code i; title := title i; description := description i;
     possible_causes := possible_causes i;
     diagnostic_aids := diagnostic_aids i; source := s |}.

(** The body of the loop over [new_2007_dtcs.items()].  The two assignments
    to fields of [merged_dtcs[code]] are an update of that entry. *)
Definition merge_new_2007_entry (code : string) (dtc_info : DtcInfo)
    (merged_dtcs : gmap string DtcInfo) : gmap string DtcInfo :=
  match merged_dtcs !! code with
  | Some existing =>
      let existing :=
        if negb (truthy (description existing)) && truthy (description dtc_info)
        then with_description (description dtc_info) existing
        else existing in
      <[code := with_source (source existing ++ ",new_2007") existing]> merged_dtcs
  | None => <[code := dtc_info]> merged_dtcs
  end.

(** The body of the loop over [rac_dtcs.items()]. *)
Definition merge_rac_entry (code : string) (dtc_info : DtcInfo)
    (merged_dtcs : gmap string DtcInfo) : gmap string DtcInfo :=
  match merged_dtcs !! code with
  | Some existing =>
      <[code := with_source (source existing ++ ",rac") existing]> merged_dtcs
  | None => <[code := dtc_info]> merged_dtcs
  end.

(** [merge_dtc_databases].  Each loop visits every key of its dictionary
    once and its body only touches the entry of that key, so the order of
    the visit does not matter; the records of the three dictionaries are
    taken to be distinct objects, as the extractors build them. *)
Definition merge_dtc_databases (primary_dtcs new_2007_dtcs rac_dtcs
    : gmap string DtcInfo) : gmap string DtcInfo :=
  let merged_dtcs : gmap string DtcInfo := ∅ in
  let merged_dtcs := primary_dtcs ∪ merged_dtcs in
  let merged_dtcs := map_fold merge_new_2007_entry merged_dtcs new_2007_dtcs in
  map_fold merge_rac_entry merged_dtcs rac_dtcs.

(** What the entry of one code becomes when [new_2007] has [n] for it. *)
Definition after_new_2007 (existing : option DtcInfo) (n : DtcInfo) : DtcInfo :=
  match existing with
  | Some p =>
      {| code := code p; title := title p;
         description :=
           if negb (truthy (description p)) && truthy (description n)
           then description n else description p;
         possible_causes := possible_causes p;
         diagnostic_aids := diagnostic_aids p;
         source := source p ++ ",new_2007" |}
  | None => n
  end.

(** What the entry of one code becomes when [rac] has [r] for it. *)
Definition after_rac (existing : option DtcInfo) (r : DtcInfo) : DtcInfo :=
  match existing with
  | Some p => with_source (source p ++ ",rac") p
  | None => r
  end.

(** The tags of the sources that have an entry for [code], in source
    order. *)
Definition contributing_sources (primary_dtcs new_2007_dtcs rac_dtcs
    : gmap string DtcInfo) (code : string) : list string :=
  (match primary_dtcs !! code with Some _ => ["primary"] | None => [] end) ++
  (match new_2007_dtcs !! code with Some _ => ["new_2007"] | None => [] end) ++
  (match rac_dtcs !! code with Some _ => ["rac"] | None => [] end).

(** Every record of a dictionary carries the tag of its source, as the
    extractors write it. *)
Definition tagged (tag : string) (dtcs : gmap string DtcInfo) : Prop :=
  ∀ code info, dtcs !! code = Some info → source info = tag.

(** The reading of the design note under which every later source fills an
    empty description: whenever the primary record of a code has no
    description and a later source has one, the merged record has one. *)
Definition later_sources_fill_description : Prop :=
  ∀ (primary_dtcs new_2007_dtcs rac_dtcs : gmap string DtcInfo)
    (code : string) (p later merged : DtcInfo),
    primary_dtcs !! code = Some p →
    description p = "" →
    (new_2007_dtcs !! code = Some later ∨ rac_dtcs !! code = Some later) →
    description later ≠ "" →
    merge_dtc_databases primary_dtcs new_2007_dtcs rac_dtcs !! code = Some merged →
    description merged ≠ "".

(** A primary record without description, and a record of the third source
    with one. *)
Definition p0420_primary : DtcInfo :=
  {| code := "P0420"; title := "Catalyst System Efficiency Below Threshold";
     description := ""; possible_causes := [""]; diagnostic_aids := "";
     source := "primary" |}.

Definition p0420_rac : DtcInfo :=
  {| code := "P0420"; title := "Catalyst efficiency";
     description := "Catalytic converter is not working efficiently";
     possible_causes := []; diagnostic_aids := ""; source := "rac" |}.

(** ** Propositions used in the statements *)




Definition rpm_definition : ParamInfo :=
  mkparam "010C" "Engine RPM" "rpm" (Some 600%Q) (Some 6500%Q)
          (Some 6000%Q) (Some 6500%Q) "high" 1 "Engine revolutions per minute".


(** What [param_info_of] yields, as a function of the parameter table: the
    definition of [param_path], or the exception of the first step that
    fails. *)
Definition resolve (PARAMETERS : gmap string (gmap string ParamInfo))
    (param_path : string) : outcome ParamInfo :=
  match split "." param_path with
  | [category; param] =>
      match PARAMETERS !! category with
      | Some by_category =>
          match by_category !! param with
          | Some info => Returned info
          | None => Raised (KeyError param)
          end
      | None => Raised (KeyError category)
      end
  | [] => Raised (ValueError "not enough values to unpack (expected 2, got 0)")
  | [_] => Raised (ValueError "not enough values to unpack (expected 2, got 1)")
  | _ => Raised (ValueError "too many values to unpack (expected 2)")
  end.

(** The first parameter key of a list that does not resolve, with its
    exception. *)
Fixpoint first_unresolved (PARAMETERS : gmap string (gmap string ParamInfo))
    (keys : list string) : option (string * exn) :=
  match keys with
  | [] => None
  | k :: keys' =>
      match resolve PARAMETERS k with
      | Raised e => Some (k, e)
      | Returned _ => first_unresolved PARAMETERS keys'
      end
  end.

(** What a key of the active profile needs for the loop body of
    [update_parameters] to go through: it resolves and has its entry in the
    history and in the current session. *)
Definition key_ready (PARAMETERS : gmap string (gmap string ParamInfo))
    (w : World) (k : string) : Prop :=
  (∃ info, resolve PARAMETERS k = Returned info) ∧
  is_Some (historical_data (self w) !! k) ∧
  is_Some (parameters (current_session (monitoring_data (self w))) !! k).

(** A monitor whose active profile has been set up by a successful
    [start_monitoring]: the profile is in the catalog and each of its keys
    is ready. *)
Definition ready (PARAMETERS : gmap string (gmap string ParamInfo))
    (PROFILES : gmap string Profile) (w : World) : Prop :=
  ∃ prof, PROFILES !! active_profile (self w) = Some prof ∧
    ∀ k, k ∈ pr_parameters prof → key_ready PARAMETERS w k.

(** [k] was sampled between [w] and [w']: a request for it was added to the
    acquisition log. *)
Definition sampled_between (w w' : World) (k : string) : Prop :=
  ∃ added, acquired w' = (acquired w ++ added)%list ∧ k ∈ added.*1.

(** [self.last_poll_time.get(param_path, 0)]. *)
Definition last_polled (w : World) (param_path : string) : Q :=
  default 0%Q (last_poll_time (self w) !! param_path).

(** The request [update_parameters] makes for a parameter. *)
Definition request_for (w : World) (param_path : string) (info : ParamInfo)
    : acquisition :=
  if obd_interface (self w) then FromObd (pi_pid info)
  else Simulated param_path.

(** What the two loops ([start_monitoring] over the profile, and
    [update_parameters]) leave untouched. *)
Record session_frame (w w' : World) : Prop := {
  frame_stdout : stdout w' = stdout w;
  frame_storage : storage w' = storage w;
  frame_obd_interface : obd_interface (self w') = obd_interface (self w);
  frame_active_profile : active_profile (self w') = active_profile (self w);
  frame_monitoring_active :
    monitoring_active (self w') = monitoring_active (self w);
  frame_historical_sessions :
    historical_sessions (monitoring_data (self w')) =
    historical_sessions (monitoring_data (self w));
  frame_start_time :
    start_time (current_session (monitoring_data (self w'))) =
    start_time (current_session (monitoring_data (self w)));
  frame_duration :
    duration (current_session (monitoring_data (self w'))) =
    duration (current_session (monitoring_data (self w)));
  frame_dtcs :
    dtcs (current_session (monitoring_data (self w'))) =
    dtcs (current_session (monitoring_data (self w)));
  frame_vehicle_info :
    vehicle_info (metadata (monitoring_data (self w'))) =
    vehicle_info (metadata (monitoring_data (self w)));
  frame_monitoring_start_time :
    monitoring_start_time (metadata (monitoring_data (self w'))) =
    monitoring_start_time (metadata (monitoring_data (self w)));
  frame_md_active_profile :
    md_active_profile (metadata (monitoring_data (self w'))) =
    md_active_profile (metadata (monitoring_data (self w)));
  frame_total_dtcs :
    total_dtcs (metadata (monitoring_data (self w'))) =
    total_dtcs (metadata (monitoring_data (self w)))
}.

(** The world once [start_monitoring], called while idle, has made the
    assignments that precede its first table lookup
    ([MONITORING_PROFILES[profile]]). *)
Definition opened (profile : string) (now_meta now_session : Z) (w : World)
    : World :=
  {| self :=
       with_last_poll_time (λ _, ∅)
         (with_alerts (λ _, [])
           (with_historical_data (λ _, ∅)
             (with_current_values (λ _, ∅)
               (with_monitoring_data (with_current_session (λ _,
                  {| start_time := Iso now_session; duration := 0;
                     parameters := ∅; ses_alerts := []; dtcs := [] |}))
                 (with_monitoring_data (with_metadata
                    (with_monitoring_start_time (Iso now_meta)))
                   (with_monitoring_data (with_metadata
                      (with_md_active_profile profile))
                     (with_monitoring_active true
                       (with_active_profile profile (self w)))))))));
     stdout := stdout w; storage := storage w; acquired := acquired w |}.

(** The session [start_monitoring] assigns to ['current_session'] before it
    fills in the parameters. *)
Definition fresh_session (now_session : Z) : Session :=
  {| start_time := Iso now_session; duration := 0; parameters := ∅;
     ses_alerts := []; dtcs := [] |}.

(** The current value [update_parameters] writes for a sampled parameter. *)
Definition sampled_value (r : Readings) (w : World) (param_path : string)
    (info : ParamInfo) : CurrentValue :=
  let value := read_value r (request_for w param_path info) in
  {| cv_value := value; cv_unit := pi_unit info;
     cv_timestamp := Some (datetime_now r param_path);
     cv_status := evaluate_status value info |}.

(** The alert bookkeeping between two worlds: [n] alerts were raised, each
    appended to the alert lists and counted once. *)
Definition raised_alerts (w w' : World) (n : nat) : Prop :=
  total_alerts (metadata (monitoring_data (self w'))) =
    total_alerts (metadata (monitoring_data (self w))) + n ∧
  length (alerts (self w')) = length (alerts (self w)) + n ∧
  length (ses_alerts (current_session (monitoring_data (self w')))) =
    length (ses_alerts (current_session (monitoring_data (self w)))) + n.

(** Entries of the history and of the current session are kept. *)
Definition keeps_entries (w w' : World) : Prop :=
  (∀ k, is_Some (historical_data (self w) !! k) →
        is_Some (historical_data (self w') !! k)) ∧
  (∀ k, is_Some (parameters (current_session (monitoring_data (self w))) !! k) →
        is_Some (parameters (current_session (monitoring_data (self w'))) !! k)).

(** The entries of one parameter in the last-poll map and in the current
    values are the same in two worlds. *)
Definition untouched (w w' : World) (k : string) : Prop :=
  last_poll_time (self w') !! k = last_poll_time (self w) !! k ∧
  current_values (self w') !! k = current_values (self w) !! k.

(** The parameter was sampled at this tick: polled now, current value
    overwritten with what the value source answered. *)
Definition overwritten (r : Readings) (w w' : World) (k : string)
    (info : ParamInfo) : Prop :=
  last_poll_time (self w') !! k = Some (time_time r) ∧
  current_values (self w') !! k = Some (sampled_value r w k info).

(** The world before tick [n] of a run of [update_parameters] calls, tick
    [i] being made with the readings [rs i]. *)
Fixpoint before_tick (PARAMETERS : gmap string (gmap string ParamInfo))
    (PROFILES : gmap string Profile) (rs : nat → Readings) (n : nat)
    (w : World) : World :=
  match n with
  | O => w
  | S n' =>
      (update_parameters PARAMETERS PROFILES (rs n')
         (before_tick PARAMETERS PROFILES rs n' w)).2
  end.

(** The persisted document is the in-memory document. *)
Definition synced (w : World) : Prop :=
  persisted (storage w) = Some (monitoring_data (self w)).

(** The call ended with a save of the document as it is in memory after the
    call. *)
Definition saved_at_end (w w' : World) : Prop :=
  save_calls (storage w') =
    (save_calls (storage w) ++ [monitoring_data (self w')])%list ∧
  (available (storage w) = true → synced w').


(** Where a parameter stands before tick [n] of a run that began right after
    [start_monitoring]: never polled yet (tick 0), or last polled at an
    earlier tick [m], a multiple of the period [N] at most [N] ticks back. *)
Definition polled_on_period (rs : nat → Readings) (N n : nat) (w : World)
    (k : string) : Prop :=
  (n = 0%nat ∧ last_poll_time (self w) !! k = Some 0%Q) ∨
  (∃ m : nat, (m < n)%nat ∧ (n ≤ m + N)%nat ∧ m `mod` N = 0%nat ∧
              last_poll_time (self w) !! k = Some (time_time (rs m))).

(** ** Engine operations *)

(** The calls a client can make on a monitor, with the readings each takes
    from the outside. *)
Inductive operation :=
| SetVehicleInfo (vin make model year engine : string)
| StartMonitoring (profile : string) (now_meta now_session : Z)
| StopMonitoring (now : Z)
| UpdateParameters (r : Readings).

(** The world after a call, whatever it returned or raised. *)
Definition perform (PARAMETERS : gmap string (gmap string ParamInfo))
    (PROFILES : gmap string Profile) (op : operation) (w : World) : World :=
  match op with
  | SetVehicleInfo vin make model year engine =>
      (set_vehicle_info vin make model year engine w).2
  | StartMonitoring profile now_meta now_session =>
      (start_monitoring PARAMETERS PROFILES profile now_meta now_session w).2
  | StopMonitoring now => (stop_monitoring now w).2
  | UpdateParameters r => (update_parameters PARAMETERS PROFILES r w).2
  end.

Definition perform_all (PARAMETERS : gmap string (gmap string ParamInfo))
    (PROFILES : gmap string Profile) (ops : list operation) (w : World)
    : World :=
  fold_left (λ w op, perform PARAMETERS PROFILES op w) ops w.

(** The total-alert counter of the document. *)
Definition alert_count (w : World) : nat :=
  total_alerts (metadata (monitoring_data (self w))).

(** A computation that, from every world, relates the monitor before and
    after by [R]. *)
Definition respects (R : VehicleMonitor → VehicleMonitor → Prop) {A}
    (m : M A) : Prop :=
  ∀ w, R (self w) (self (m w).2).

(** The counter is the same. *)
Definition same_count (s s' : VehicleMonitor) : Prop :=
  total_alerts (metadata (monitoring_data s')) =
  total_alerts (metadata (monitoring_data s)).

(** Some number of alerts was appended to both alert lists and counted. *)
Definition counted_alerts (s s' : VehicleMonitor) : Prop :=
  ∃ n : nat,
    total_alerts (metadata (monitoring_data s')) =
      total_alerts (metadata (monitoring_data s)) + n ∧
    length (alerts s') = length (alerts s) + n ∧
    length (ses_alerts (current_session (monitoring_data s'))) =
      length (ses_alerts (current_session (monitoring_data s))) + n.

(** Readings in which the engine speed is 7000 rpm, above its critical
    threshold, and every other parameter reads 90; the clock shows [t]. *)
Definition overspeed_readings (t : Q) : Readings :=
  {| time_time := t;
     datetime_now := λ _, 0%Z;
     read_value := λ a,
       match a with
       | Simulated p =>
           if String.eqb p "ENGINE_PARAMETERS.RPM" then Some 7000%Q
           else Some 90%Q
       | FromObd _ => None
       end |}.

(** ** Concrete worlds and tables for the examples *)


(** One-second ticks from clock reading 1000, all parameters reading 90
    except the engine speed. *)
Definition second_ticks (i : nat) : Readings :=
  overspeed_readings (1000 + inject_Z (Z.of_nat i)).

(** A fresh monitor without OBD interface, and the same monitor once the
    standard profile has been started. *)
Definition idle_world : World := new_world false "STANDARD".

Definition monitoring_world : World :=
  (start_monitoring MONITORING_PARAMETERS MONITORING_PROFILES "STANDARD"
     10 10 idle_world).2.

(** The entries of the tables the examples look at. *)
Definition standard_profile : Profile :=
  {| pr_name := "Standard Monitoring";
     pr_description := "Basic vehicle monitoring for everyday driving";
     pr_parameters := [
       "ENGINE_PARAMETERS.RPM";
       "ENGINE_PARAMETERS.COOLANT_TEMP";
       "VEHICLE_PARAMETERS.SPEED";
       "FUEL_PARAMETERS.FUEL_LEVEL" ];
     polling_interval := 5;
     alert_threshold := warning |}.

Definition coolant_definition : ParamInfo :=
  mkparam "0105" "Coolant Temperature" "°C" (Some 75%Q) (Some 105%Q)
          (Some 105%Q) (Some 115%Q) "high" 5 "Engine coolant temperature".

(** ** Reachable worlds *)

(** Every profile of the catalog references only keys the parameter table
    resolves. *)
Definition catalog_valid (PARAMETERS : gmap string (gmap string ParamInfo))
    (PROFILES : gmap string Profile) : Prop :=
  ∀ name prof, PROFILES !! name = Some prof →
    first_unresolved PARAMETERS (pr_parameters prof) = None.

(** The worlds a client can bring about: a newly constructed monitor, then
    any sequence of calls. *)
Inductive reachable (PARAMETERS : gmap string (gmap string ParamInfo))
    (PROFILES : gmap string Profile) : World → Prop :=
| reachable_new (w : World) (obd : bool) (profile : string) :
    self w = new_monitor obd profile →
    reachable PARAMETERS PROFILES w
| reachable_perform (w : World) (op : operation) :
    reachable PARAMETERS PROFILES w →
    reachable PARAMETERS PROFILES (perform PARAMETERS PROFILES op w).

(** What every call but [start_monitoring] and [stop_monitoring] keeps of
    the monitor, however it ends. *)
Definition engine_frame (s s' : VehicleMonitor) : Prop :=
  monitoring_active s' = monitoring_active s ∧
  active_profile s' = active_profile s ∧
  obd_interface s' = obd_interface s ∧
  start_time (current_session (monitoring_data s')) =
    start_time (current_session (monitoring_data s)) ∧
  historical_sessions (monitoring_data s') =
    historical_sessions (monitoring_data s).

(** The invariant of reachable worlds: while monitoring, the session has a
    start time, and the active profile, if the catalog has it, is ready. *)
Definition well_formed (PARAMETERS : gmap string (gmap string ParamInfo))
    (PROFILES : gmap string Profile) (w : World) : Prop :=
  Monitoring w →
  (∃ t, start_time (current_session (monitoring_data (self w))) = Iso t) ∧
  (is_Some (PROFILES !! active_profile (self w)) →
   ready PARAMETERS PROFILES w).

(** * More of the code *)

(** ** Text clean-up ([clean_text] of [dtc_parser.py]) *)

(** A character of a string stands for the code point of the same number.
    [isspace] is the class [\s] of a Python 3 [str] pattern, which is also
    what [str.strip()] removes, on the code points below 256: tab to
    carriage return, the separators 28 to 31, the space, NEL and the
    no-break space. *)
Definition isspace (c : ascii) : bool :=
  let n := nat_of_ascii c in
  (Nat.leb 9 n && Nat.leb n 13) || (Nat.leb 28 n && Nat.leb n 32) ||
  Nat.eqb n 133 || Nat.eqb n 160.

(** [re.sub(r'\s+', ' ', text)]: every maximal run of whitespace becomes one
    space.  [in_run] tells that the previous character was whitespace. *)
Fixpoint sub_whitespace (in_run : bool) (text : string) : string :=
  match text with
  | EmptyString => EmptyString
  | String c text' =>
      if isspace c then
        if in_run then sub_whitespace true text'
        else String " " (sub_whitespace true text')
      else String c (sub_whitespace false text')
  end.

(** [text.lstrip()] and [text.rstrip()]. *)
Fixpoint lstrip (text : string) : string :=
  match text with
  | EmptyString => EmptyString
  | String c text' => if isspace c then lstrip text' else text
  end.

Fixpoint rstrip (text : string) : string :=
  match text with
  | EmptyString => EmptyString
  | String c text' =>
      match rstrip text' with
      | EmptyString => if isspace c then EmptyString else String c EmptyString
      | String _ _ as kept => String c kept
      end
  end.

(** [text.strip()]. *)
Definition strip (text : string) : string := rstrip (lstrip text).

Definition clean_text (text : string) : string :=
  if negb (truthy text) then ""
  else
    let text := sub_whitespace false text in
    strip text.

(** The characters of a text that are not whitespace, in order. *)
Fixpoint nonspace_chars (text : string) : list ascii :=
  match text with
  | EmptyString => []
  | String c text' =>
      if isspace c then nonspace_chars text' else c :: nonspace_chars text'
  end.

(** A text does not begin with whitespace. *)
Definition starts_nonspace (text : string) : Prop :=
  match text with
  | EmptyString => True
  | String c _ => isspace c = false
  end.

(** Every whitespace character of a text is a plain space that a
    non-whitespace character follows: no run of whitespace, none at the
    end. *)
Fixpoint single_spaced (text : string) : Prop :=
  match text with
  | EmptyString => True
  | String c text' =>
      (isspace c = true →
       c = " "%char ∧
       match text' with
       | EmptyString => False
       | String c' _ => isspace c' = false
       end) ∧
      single_spaced text'
  end.

(** The normal form [clean_text] produces: words separated by single
    spaces, nothing around them. *)
Definition normalized (text : string) : Prop :=
  starts_nonspace text ∧ single_spaced text.

(** As [single_spaced], but a space may end the text. *)
Fixpoint loosely_spaced (text : string) : Prop :=
  match text with
  | EmptyString => True
  | String c text' =>
      (isspace c = true → c = " "%char ∧ starts_nonspace text') ∧
      loosely_spaced text'
  end.

(** ** Categories and the database ([dtc_parser.py]) *)

(** [extract_dtcs_from_rac]: the third source is not parsed, the function
    returns an empty dictionary. *)
Definition extract_dtcs_from_rac : gmap string DtcInfo := ∅.

(** The exception of an index past the end of a string. *)
Inductive index_error := IndexError (msg : string).

(** The dictionary [categories] of [categorize_dtcs]. *)
Definition categories : gmap string string :=
  list_to_map [
    ("0", "Generic OBD-II");
    ("1", "Manufacturer Specific");
    ("2", "Generic OBD-II (includes P0XXX codes)");
    ("3", "Generic OBD-II and Manufacturer Specific")
  ].

(** [s.startswith(prefix)]. *)
Definition startswith (prefix s : string) : bool := String.prefix prefix s.

(** [s[i]] for an index [i >= 0]: a string of one character. *)
Definition char_at (i : nat) (s : string) : index_error + string :=
  match String.get i s with
  | Some c => inr (String c EmptyString)
  | None => inl (IndexError "string index out of range")
  end.

(** The body of the loop of [categorize_dtcs]; [categorized] is the
    [defaultdict(list)]. *)
Definition categorize_entry (categorized : gmap string (list DtcInfo))
    (item : string * DtcInfo) : index_error + gmap string (list DtcInfo) :=
  let '(code, info) := item in
  if startswith "P" code then
    match char_at 1 code with
    | inr category_digit =>
        let category := default "Unknown" (categories !! category_digit) in
        inr (<[category := (default [] (categorized !! category) ++ [info])%list]>
               categorized)
    | inl e => inl e
    end
  else inr categorized.

Fixpoint categorize_loop (items : list (string * DtcInfo))
    (categorized : gmap string (list DtcInfo))
    : index_error + gmap string (list DtcInfo) :=
  match items with
  | [] => inr categorized
  | item :: items' =>
      match categorize_entry categorized item with
      | inr categorized' => categorize_loop items' categorized'
      | inl e => inl e
      end
  end.

(** [categorize_dtcs(dtcs)], on [dtcs.items()] in the order of the
    dictionary. *)
Definition categorize_dtcs (items : list (string * DtcInfo))
    : index_error + gmap string (list DtcInfo) :=
  categorize_loop items ∅.

(** The category [categorize_dtcs] files a code under, if any: the one of
    its second character, for a code that begins with [P]. *)
Definition category_of (code : string) : option string :=
  if startswith "P" code then
    match String.get 1 code with
    | Some c => Some (default "Unknown" (categories !! String c EmptyString))
    | None => None
    end
  else None.

(** The records of the items filed under [category], in order. *)
Definition filed_under (category : string) (items : list (string * DtcInfo))
    : list DtcInfo :=
  (filter (λ item, category_of item.1 = Some category) items).*2.

(** The names a category can have. *)
Definition category_names : list string :=
  [ "Generic OBD-II"; "Manufacturer Specific";
    "Generic OBD-II (includes P0XXX codes)";
    "Generic OBD-II and Manufacturer Specific"; "Unknown" ].

(** The dictionary [main] writes out. *)
Record DtcDatabase := {
  db_total_codes : nat;
  db_sources : list string;
  db_categories : list string;
  db_codes : list DtcInfo;
  db_categorized : gmap string (list DtcInfo)
}.

(** [main] without its file access and progress messages: from the
    dictionaries the extractors of the first two sources return to the
    dictionary that is dumped.  The items of the merged dictionary are taken in
    the order of [map_to_list]. *)
Definition main_database (primary_dtcs new_2007_dtcs : gmap string DtcInfo)
    : index_error + DtcDatabase :=
  let rac_dtcs := extract_dtcs_from_rac in
  let merged_dtcs := merge_dtc_databases primary_dtcs new_2007_dtcs rac_dtcs in
  match categorize_dtcs (map_to_list merged_dtcs) with
  | inr categorized_dtcs =>
      inr {| db_total_codes := size merged_dtcs;
             db_sources := ["primary"; "new_2007"; "rac"];
             db_categories := (map_to_list categorized_dtcs).*1;
             db_codes := (map_to_list merged_dtcs).*2;
             db_categorized := categorized_dtcs |}
  | inl e => inl e
  end.

(** Every record of a dictionary is stored under its own code. *)
Definition keyed_by_code (dtcs : gmap string DtcInfo) : Prop :=
  ∀ k info, dtcs !! k = Some info → code info = k.

(** ** More on the session engine *)

(** The historical sessions are the same. *)
Definition same_history (s s' : VehicleMonitor) : Prop :=
  historical_sessions (monitoring_data s') =
  historical_sessions (monitoring_data s).

(** All of the monitor but the vehicle information is the same. *)
Definition same_but_vehicle_info (s s' : VehicleMonitor) : Prop :=
  obd_interface s' = obd_interface s ∧
  active_profile s' = active_profile s ∧
  monitoring_active s' = monitoring_active s ∧
  current_values s' = current_values s ∧
  historical_data s' = historical_data s ∧
  alerts s' = alerts s ∧
  last_poll_time s' = last_poll_time s ∧
  current_session (monitoring_data s') = current_session (monitoring_data s) ∧
  historical_sessions (monitoring_data s') =
    historical_sessions (monitoring_data s) ∧
  monitoring_start_time (metadata (monitoring_data s')) =
    monitoring_start_time (metadata (monitoring_data s)) ∧
  md_active_profile (metadata (monitoring_data s')) =
    md_active_profile (metadata (monitoring_data s)) ∧
  total_alerts (metadata (monitoring_data s')) =
    total_alerts (metadata (monitoring_data s)) ∧
  total_dtcs (metadata (monitoring_data s')) =
    total_dtcs (metadata (monitoring_data s)).

(** The in-memory data of a session, which [stop_monitoring] leaves in
    place. *)
Definition same_live_data (s s' : VehicleMonitor) : Prop :=
  obd_interface s' = obd_interface s ∧
  active_profile s' = active_profile s ∧
  current_values s' = current_values s ∧
  historical_data s' = historical_data s ∧
  alerts s' = alerts s ∧
  last_poll_time s' = last_poll_time s ∧
  metadata (monitoring_data s') = metadata (monitoring_data s).

(** The entries [start_monitoring] creates for a parameter. *)
Definition initial_current_value (info : ParamInfo) : CurrentValue :=
  {| cv_value := None; cv_unit := pi_unit info; cv_timestamp := None;
     cv_status := unknown |}.

Definition initial_session_param (info : ParamInfo) : SessionParam :=
  {| sp_name := pi_name info; sp_unit := pi_unit info; sp_values := [];
     sp_status := unknown |}.

(** * Properties *)

Example split_param_path :
  split "." "FUEL_PARAMETERS.FUEL_LEVEL" = ["FUEL_PARAMETERS"; "FUEL_LEVEL"].
Proof. reflexivity. Qed.

(** ** The status evaluator *)





Lemma rpm_definition_in_table :
  MONITORING_PARAMETERS !! "ENGINE_PARAMETERS" ≫= (.!! "RPM")
  = Some rpm_definition.
Proof. vm_compute. reflexivity. Qed.





(** ** Running the monad *)

Lemma bind_returned {A B} (m : M A) (k : A → M B) w a w' :
  m w = (Returned a, w') → (m ≫= k) w = k a w'.
Proof. intros H. unfold mbind, M_bind, bind. rewrite H. reflexivity. Qed.

Lemma bind_raised {A B} (m : M A) (k : A → M B) w e w' :
  m w = (Raised e, w') → (m ≫= k) w = (Raised e, w').
Proof. intros H. unfold mbind, M_bind, bind. rewrite H. reflexivity. Qed.


Ltac run :=
  unfold mbind, M_bind, bind, mret, M_ret, ret, raise, get_self, modify_self,
    print; cbn.

(** ** Resolving parameter keys *)

Lemma unpack2_pure xs w :
  unpack2 xs w = (match xs with
                  | [a; b] => Returned (a, b)
                  | [] =>
                      Raised (ValueError "not enough values to unpack (expected 2, got 0)")
                  | [_] =>
                      Raised (ValueError "not enough values to unpack (expected 2, got 1)")
                  | _ => Raised (ValueError "too many values to unpack (expected 2)")
                  end, w).
Proof. destruct xs as [|a [|b [|c xs]]]; reflexivity. Qed.

Lemma subscript_pure {V} (d : gmap string V) k w :
  subscript d k w = (match d !! k with
                     | Some v => Returned v
                     | None => Raised (KeyError k)
                     end, w).
Proof. unfold subscript. destruct (d !! k); reflexivity. Qed.

Lemma param_info_of_resolve PARAMETERS param_path w :
  param_info_of PARAMETERS param_path w = (resolve PARAMETERS param_path, w).
Proof.
  unfold param_info_of, resolve. unfold mbind, M_bind, bind.
  rewrite unpack2_pure.
  destruct (split "." param_path) as [|a [|b [|c xs]]]; try reflexivity.
  rewrite subscript_pure.
  destruct (PARAMETERS !! a) as [m|]; [|reflexivity].
  rewrite subscript_pure. destruct (m !! b); reflexivity.
Qed.

Lemma first_unresolved_None PARAMETERS keys :
  first_unresolved PARAMETERS keys = None ↔
  ∀ k, k ∈ keys → ∃ info, resolve PARAMETERS k = Returned info.
Proof.
  induction keys as [|k keys IH]; simpl.
  - split; [|done]. intros _ k Hk. by apply elem_of_nil in Hk.
  - destruct (resolve PARAMETERS k) as [info|e] eqn:Hres.
    + rewrite IH. split.
      * intros H k' Hk'. apply elem_of_cons in Hk' as [->|Hk']; eauto.
      * intros H k' Hk'. apply H. by apply elem_of_cons; right.
    + split; [discriminate|]. intros H.
      destruct (H k) as [info Hinfo]; [by apply elem_of_cons; left|].
      congruence.
Qed.

(** ** The session state machine *)

Section StateMachine.

Variable PARAMETERS : gmap string (gmap string ParamInfo).
Variable PROFILES : gmap string Profile.

(** [start_monitoring] while monitoring. *)
Lemma start_monitoring_active_run (w : World) (profile : string)
    (now_meta now_session : Z) :
  Monitoring w →
  start_monitoring PARAMETERS PROFILES profile now_meta now_session w =
    (Returned false,
     {| self := self w;
        stdout := (stdout w ++
          [Text "Monitoring is already active. Stop monitoring first."])%list;
        storage := storage w; acquired := acquired w |}).
Proof.
  unfold Monitoring. intros Hact. unfold start_monitoring.
  unfold mbind at 1, M_bind at 1, bind at 1, get_self at 1.
  rewrite Hact. reflexivity.
Qed.

(** [stop_monitoring] while idle. *)
Lemma stop_monitoring_idle_run (w : World) (now : Z) :
  Idle w →
  stop_monitoring now w =
    (Returned false,
     {| self := self w;
        stdout := (stdout w ++ [Text "Monitoring is not active."])%list;
        storage := storage w; acquired := acquired w |}).
Proof.
  unfold Idle. intros Hidle. unfold stop_monitoring.
  unfold mbind at 1, M_bind at 1, bind at 1, get_self at 1.
  rewrite Hidle. reflexivity.
Qed.

(** C3. In the Monitoring state a second [start] is refused: it prints the
    already-active message, returns [False], and leaves the whole monitor
    (session start time, active profile, last-poll map, monitoring flag)
    and the store as they were. *)
Theorem start_while_monitoring_rejected (w : World) (profile : string)
    (now_meta now_session : Z) :
  Monitoring w →
  ∃ w', start_monitoring PARAMETERS PROFILES profile now_meta now_session w
          = (Returned false, w') ∧
        self w' = self w ∧
        storage w' = storage w ∧
        acquired w' = acquired w ∧
        stdout w' = (stdout w ++
          [Text "Monitoring is already active. Stop monitoring first."])%list ∧
        start_time (current_session (monitoring_data (self w'))) =
          start_time (current_session (monitoring_data (self w))) ∧
        active_profile (self w') = active_profile (self w) ∧
        last_poll_time (self w') = last_poll_time (self w) ∧
        Monitoring w'.
Proof.
  intros Hmon. eexists. split.
  - by apply start_monitoring_active_run.
  - cbn. split; [reflexivity|]. split; [reflexivity|]. split; [reflexivity|].
    split; [reflexivity|]. split; [reflexivity|]. split; [reflexivity|].
    split; [reflexivity|]. exact Hmon.
Qed.

(** C4. In the Idle state [stop] is refused: it prints the not-active
    message, returns [False], appends nothing to the historical sessions
    and leaves the monitoring document, the monitor and the store as they
    were. *)
Theorem stop_while_idle_rejected (w : World) (now : Z) :
  Idle w →
  ∃ w', stop_monitoring now w = (Returned false, w') ∧
        self w' = self w ∧
        monitoring_data (self w') = monitoring_data (self w) ∧
        historical_sessions (monitoring_data (self w')) =
          historical_sessions (monitoring_data (self w)) ∧
        storage w' = storage w ∧
        acquired w' = acquired w ∧
        stdout w' = (stdout w ++ [Text "Monitoring is not active."])%list ∧
        Idle w'.
Proof.
  intros Hidle. eexists. split.
  - by apply stop_monitoring_idle_run.
  - cbn. split; [reflexivity|]. split; [reflexivity|]. split; [reflexivity|].
    split; [reflexivity|]. split; [reflexivity|]. split; [reflexivity|].
    exact Hidle.
Qed.

End StateMachine.

(** ** Starting a session *)

Lemma session_frame_refl w : session_frame w w.
Proof. by constructor. Qed.

Lemma session_frame_trans w1 w2 w3 :
  session_frame w1 w2 → session_frame w2 w3 → session_frame w1 w3.
Proof.
  intros [] []. constructor; etrans; eassumption.
Qed.

Section Start.

Variable PARAMETERS : gmap string (gmap string ParamInfo).
Variable PROFILES : gmap string Profile.

Lemma initialize_parameter_run k info w :
  resolve PARAMETERS k = Returned info →
  initialize_parameter PARAMETERS k w =
    (Returned (),
     {| self :=
          with_monitoring_data (with_current_session (with_parameters
            (<[k := {| sp_name := pi_name info; sp_unit := pi_unit info;
                       sp_values := []; sp_status := unknown |}]>)))
            (with_last_poll_time (<[k := 0%Q]>)
              (with_historical_data (<[k := []]>)
                (with_current_values
                  (<[k := {| cv_value := None; cv_unit := pi_unit info;
                             cv_timestamp := None; cv_status := unknown |}]>)
                  (self w))));
        stdout := stdout w; storage := storage w; acquired := acquired w |}).
Proof.
  intros Hres. unfold initialize_parameter.
  erewrite bind_returned; [|rewrite param_info_of_resolve, Hres; reflexivity].
  reflexivity.
Qed.


(** The loop of [start_monitoring] over keys that all resolve. *)
Lemma initialize_parameters_run (ks : list string) : ∀ w,
  first_unresolved PARAMETERS ks = None →
  ∃ w', for_each ks (initialize_parameter PARAMETERS) w = (Returned (), w') ∧
    session_frame w w' ∧
    acquired w' = acquired w ∧
    alerts (self w') = alerts (self w) ∧
    total_alerts (metadata (monitoring_data (self w'))) =
      total_alerts (metadata (monitoring_data (self w))) ∧
    ses_alerts (current_session (monitoring_data (self w'))) =
      ses_alerts (current_session (monitoring_data (self w))) ∧
    (∀ k, last_poll_time (self w') !! k =
          if decide (k ∈ ks) then Some 0%Q else last_poll_time (self w) !! k) ∧
    (∀ k, historical_data (self w') !! k =
          if decide (k ∈ ks) then Some [] else historical_data (self w) !! k) ∧
    (∀ k, k ∈ ks →
          is_Some (parameters (current_session (monitoring_data (self w'))) !! k)) ∧
    (∀ k, k ∉ ks →
          parameters (current_session (monitoring_data (self w'))) !! k =
          parameters (current_session (monitoring_data (self w))) !! k).
Proof.
  induction ks as [|k ks IH]; intros w Hres.
  - exists w. split; [reflexivity|].
    split; [apply session_frame_refl|].
    repeat split; try done.
    intros k Hk. by apply elem_of_nil in Hk.
  - simpl in Hres.
    destruct (resolve PARAMETERS k) as [info|e] eqn:Hk; [|discriminate].
    simpl for_each.
    erewrite bind_returned; [|by apply initialize_parameter_run].
    match goal with |- ∃ w', for_each ks _ ?w1 = _ ∧ _ => set (w1' := w1) end.
    destruct (IH w1' Hres)
      as (w' & Hrun & Hfr & Hacq & Hal & Hta & Hsa & Hlp & Hhd & Hin & Hout).
    exists w'. split; [exact Hrun|].
    split; [eapply session_frame_trans; [|exact Hfr]; by constructor|].
    split; [by rewrite Hacq|]. split; [by rewrite Hal|].
    split; [by rewrite Hta|]. split; [by rewrite Hsa|].
    split; [|split; [|split]].
    + intros k'. rewrite Hlp. subst w1'. cbn.
      destruct (decide (k' ∈ ks)) as [Hi|Hni].
      * rewrite decide_True; [done|by apply elem_of_cons; right].
      * destruct (decide (k' = k)) as [->|Hne].
        -- rewrite lookup_insert_eq, decide_True; [done|by apply elem_of_cons; left].
        -- rewrite lookup_insert_ne by done.
           rewrite decide_False; [done|]. intros [?|?]%elem_of_cons; done.
    + intros k'. rewrite Hhd. subst w1'. cbn.
      destruct (decide (k' ∈ ks)) as [Hi|Hni].
      * rewrite decide_True; [done|by apply elem_of_cons; right].
      * destruct (decide (k' = k)) as [->|Hne].
        -- rewrite lookup_insert_eq, decide_True; [done|by apply elem_of_cons; left].
        -- rewrite lookup_insert_ne by done.
           rewrite decide_False; [done|]. intros [?|?]%elem_of_cons; done.
    + intros k' Hk'. destruct (decide (k' ∈ ks)) as [Hi|Hni]; [by apply Hin|].
      rewrite Hout by done. subst w1'. cbn.
      apply elem_of_cons in Hk' as [->|?]; [|done].
      rewrite lookup_insert_eq. eauto.
    + intros k' Hk'. rewrite Hout.
      * subst w1'. cbn. rewrite lookup_insert_ne; [done|].
        intros ->. apply Hk'. by apply elem_of_cons; left.
      * intros ?. apply Hk'. by apply elem_of_cons; right.
Qed.


(** An assignment to an attribute of [self], then the rest. *)
Lemma modify_self_then {A} f (k : M A) w :
  (modify_self f;; k) w = k (with_self f w).
Proof. reflexivity. Qed.

(** [start_monitoring] while idle: the assignments, then the lookups. *)
Lemma start_monitoring_idle (profile : string) (now_meta now_session : Z) w :
  Idle w →
  start_monitoring PARAMETERS PROFILES profile now_meta now_session w =
    (prof ← subscript PROFILES profile;
     for_each (pr_parameters prof) (initialize_parameter PARAMETERS);;
     prof' ← subscript PROFILES profile;
     print (Text ("Started monitoring with profile: " ++ pr_name prof'));;
     save_monitoring_data;;
     mret true) (opened profile now_meta now_session w).
Proof.
  unfold Idle. intros Hidle. unfold start_monitoring.
  unfold mbind at 1, M_bind at 1, bind at 1, get_self at 1.
  rewrite Hidle. cbv iota. rewrite !modify_self_then.
  f_equal.
Qed.

Lemma save_monitoring_data_run w :
  ∃ w', save_monitoring_data w = (Returned (), w') ∧
    self w' = self w ∧ acquired w' = acquired w ∧
    available (storage w') = available (storage w) ∧
    save_calls (storage w') =
      (save_calls (storage w) ++ [monitoring_data (self w)])%list ∧
    (available (storage w) = true →
       persisted (storage w') = Some (monitoring_data (self w)) ∧
       stdout w' = stdout w) ∧
    (available (storage w) = false →
       persisted (storage w') = persisted (storage w)).
Proof.
  unfold save_monitoring_data.
  destruct (available (storage w)) eqn:Hav.
  - eexists. split; [reflexivity|]. cbn. rewrite Hav. by repeat split.
  - eexists. split; [reflexivity|]. cbn. rewrite Hav. by repeat split.
Qed.

(** A successful [start_monitoring]. *)
Lemma start_monitoring_run (profile : string) prof (now_meta now_session : Z) w :
  Idle w →
  PROFILES !! profile = Some prof →
  first_unresolved PARAMETERS (pr_parameters prof) = None →
  ∃ w',
    start_monitoring PARAMETERS PROFILES profile now_meta now_session w
      = (Returned true, w') ∧
    Monitoring w' ∧
    active_profile (self w') = profile ∧
    obd_interface (self w') = obd_interface (self w) ∧
    ready PARAMETERS PROFILES w' ∧
    (∀ k, k ∈ pr_parameters prof → last_poll_time (self w') !! k = Some 0%Q) ∧
    start_time (current_session (monitoring_data (self w'))) = Iso now_session ∧
    ses_alerts (current_session (monitoring_data (self w'))) = [] ∧
    alerts (self w') = [] ∧
    monitoring_start_time (metadata (monitoring_data (self w'))) = Iso now_meta ∧
    md_active_profile (metadata (monitoring_data (self w'))) = profile ∧
    historical_sessions (monitoring_data (self w')) =
      historical_sessions (monitoring_data (self w)) ∧
    total_alerts (metadata (monitoring_data (self w'))) =
      total_alerts (metadata (monitoring_data (self w))) ∧
    acquired w' = acquired w ∧
    available (storage w') = available (storage w) ∧
    save_calls (storage w') =
      (save_calls (storage w) ++ [monitoring_data (self w')])%list ∧
    (available (storage w) = true →
       persisted (storage w') = Some (monitoring_data (self w'))).
Proof.
  intros Hidle Hprof Hres.
  rewrite start_monitoring_idle by done.
  erewrite bind_returned; [|rewrite subscript_pure, Hprof; reflexivity].
  destruct (initialize_parameters_run (pr_parameters prof)
              (opened profile now_meta now_session w) Hres)
    as (w1 & Hrun & Hfr & Hacq & Hal & Hta & Hsa & Hlp & Hhd & Hin & Hout).
  erewrite bind_returned; [|exact Hrun].
  erewrite bind_returned; [|rewrite subscript_pure, Hprof; reflexivity].
  erewrite bind_returned; [|reflexivity].
  match goal with
  | |- ∃ w', (save_monitoring_data ≫= _) ?w2 = _ ∧ _ => set (w2' := w2)
  end.
  destruct (save_monitoring_data_run w2')
    as (w' & Hsave & Hself & Hacq' & Hav & Hcalls & Hpers & _).
  erewrite bind_returned; [|exact Hsave].
  exists w'. split; [reflexivity|].
  unfold Monitoring, ready, key_ready. rewrite Hself, Hacq', Hav, Hcalls.
  subst w2'. cbn [self acquired storage stdout with_self] in *.
  destruct Hfr. cbn in *.
  split; [done|]. split; [done|]. split; [done|].
  split.
  { exists prof. split; [congruence|]. intros k Hk.
    split; [by apply first_unresolved_None with (keys := pr_parameters prof)|].
    split; [|by apply Hin].
    rewrite Hhd. rewrite decide_True by done. eauto. }
  split.
  { intros k Hk. rewrite Hlp. by rewrite decide_True. }
  repeat (split; [congruence|]).
  intros Havail. apply Hpers. congruence.
Qed.

End Start.


(** ** One tick of the scheduler *)

Section Tick.

Variable PARAMETERS : gmap string (gmap string ParamInfo).
Variable PROFILES : gmap string Profile.

Lemma determine_parameter_status_run k info value w :
  resolve PARAMETERS k = Returned info →
  determine_parameter_status PARAMETERS k value w =
    (Returned (evaluate_status value info), w).
Proof.
  intros Hres. unfold determine_parameter_status.
  erewrite bind_returned; [|rewrite param_info_of_resolve, Hres; reflexivity].
  reflexivity.
Qed.

Lemma record_sample_run k v ts st h entry w :
  historical_data (self w) !! k = Some h →
  parameters (current_session (monitoring_data (self w))) !! k = Some entry →
  record_sample k v ts st w =
    (Returned (),
     with_self (with_monitoring_data (with_current_session (with_parameters
       (<[k := {| sp_name := sp_name entry; sp_unit := sp_unit entry;
                  sp_values := (sp_values entry ++
                    [{| hs_value := v; hs_timestamp := ts |}])%list;
                  sp_status := st |}]>))))
       (with_self (with_historical_data
          (<[k := (h ++ [{| hs_value := v; hs_timestamp := ts |}])%list]>)) w)).
Proof.
  intros Hh He. unfold record_sample.
  unfold mbind at 1, M_bind at 1, bind at 1, get_self at 1.
  erewrite bind_returned; [|rewrite subscript_pure, Hh; reflexivity].
  erewrite bind_returned; [|reflexivity].
  unfold mbind at 1, M_bind at 1, bind at 1, get_self at 1.
  erewrite bind_returned; [|rewrite subscript_pure; cbn; rewrite He; reflexivity].
  reflexivity.
Qed.

Lemma alert_manager_run k v ts st prof w :
  PROFILES !! active_profile (self w) = Some prof →
  alert_manager PROFILES k v ts st w =
    (Returned (),
     if raises_alert (alert_threshold prof) st then
       let a := {| al_parameter := k; al_status := st; al_value := v;
                   al_timestamp := ts; al_acknowledged := false |} in
       with_self (with_monitoring_data (with_metadata (with_total_alerts S)))
         (with_self (with_monitoring_data (with_current_session
            (with_ses_alerts (λ l, (l ++ [a])%list))))
           (with_self (with_alerts (λ l, (l ++ [a])%list)) w))
     else w).
Proof.
  intros Hprof. unfold alert_manager.
  unfold mbind at 1, M_bind at 1, bind at 1, get_self at 1.
  erewrite bind_returned; [|rewrite subscript_pure, Hprof; reflexivity].
  destruct (raises_alert (alert_threshold prof) st); reflexivity.
Qed.

Lemma update_parameter_run (r : Readings) (k : string) info prof w :
  resolve PARAMETERS k = Returned info →
  PROFILES !! active_profile (self w) = Some prof →
  is_Some (historical_data (self w) !! k) →
  is_Some (parameters (current_session (monitoring_data (self w))) !! k) →
  ∃ w', update_parameter PARAMETERS PROFILES r k w = (Returned (), w') ∧
    session_frame w w' ∧
    keeps_entries w w' ∧
    (∀ k', k' ≠ k → untouched w w' k') ∧
    (due (self w) (time_time r) k info = false →
       w' = w) ∧
    (due (self w) (time_time r) k info = true →
       acquired w' = (acquired w ++ [(k, request_for w k info)])%list ∧
       overwritten r w w' k info) ∧
    (∃ n : nat, (n ≤ 1)%nat ∧ raised_alerts w w' n).
Proof.
  intros Hres Hprof [h Hh] [entry He].
  unfold update_parameter.
  erewrite bind_returned; [|rewrite param_info_of_resolve, Hres; reflexivity].
  unfold mbind at 1, M_bind at 1, bind at 1, get_self at 1.
  destruct (due (self w) (time_time r) k info) eqn:Hdue.
  - erewrite bind_returned; [|reflexivity].
    set (req := request_for w k info).
    set (w1 := with_self (with_last_poll_time <[k:=time_time r]>) w).
    assert ((if obd_interface (self w)
             then acquire r k (FromObd (pi_pid info))
             else acquire r k (Simulated k)) w1 =
            (Returned (read_value r req),
             {| self := self w1; stdout := stdout w1; storage := storage w1;
                acquired := (acquired w1 ++ [(k, req)])%list |})) as Hacq.
    { subst req. unfold request_for.
      destruct (obd_interface (self w)); reflexivity. }
    erewrite bind_returned; [|exact Hacq]. clear Hacq.
    erewrite bind_returned; [|by apply determine_parameter_status_run].
    erewrite bind_returned; [|reflexivity].
    destruct (read_value r req) as [v|] eqn:Hv.
    + erewrite bind_returned; [|by eapply record_sample_run; cbn; eassumption].
      rewrite (alert_manager_run _ _ _ _ prof); [|exact Hprof].
      eexists. split; [reflexivity|].
      destruct (raises_alert (alert_threshold prof) (evaluate_status (Some v) info)).
      * split; [by constructor|]. split.
        { split; intros k'; cbn; intros Hs;
            (destruct (decide (k = k')) as [->|Hne];
             [rewrite lookup_insert_eq; eauto | by rewrite lookup_insert_ne]). }
        split.
        { intros k' Hne. unfold untouched. cbn. by rewrite !lookup_insert_ne. }
        split; [discriminate|]. split.
        { intros _. unfold overwritten. cbn. rewrite !lookup_insert_eq.
          unfold sampled_value. fold req. rewrite Hv. done. }
        exists 1. split; [lia|]. unfold raised_alerts. cbn.
        rewrite !length_app. cbn. lia.
      * split; [by constructor|]. split.
        { split; intros k'; cbn; intros Hs;
            (destruct (decide (k = k')) as [->|Hne];
             [rewrite lookup_insert_eq; eauto | by rewrite lookup_insert_ne]). }
        split.
        { intros k' Hne. unfold untouched. cbn. by rewrite !lookup_insert_ne. }
        split; [discriminate|]. split.
        { intros _. unfold overwritten. cbn. rewrite !lookup_insert_eq.
          unfold sampled_value. fold req. rewrite Hv. done. }
        exists 0. split; [lia|]. unfold raised_alerts. cbn. lia.
    + eexists. split; [reflexivity|].
      split; [by constructor|]. split.
      { split; intros k'; cbn; done. }
      split.
      { intros k' Hne. unfold untouched. cbn. by rewrite !lookup_insert_ne. }
      split; [discriminate|]. split.
      { intros _. unfold overwritten. cbn. rewrite !lookup_insert_eq.
        unfold sampled_value. fold req. rewrite Hv. done. }
      exists 0. split; [lia|]. unfold raised_alerts. cbn. lia.
  - exists w. split; [reflexivity|].
    split; [apply session_frame_refl|]. split; [by split|].
    split; [done|]. split; [done|]. split; [discriminate|].
    exists 0. split; [lia|]. unfold raised_alerts. lia.
Qed.

Lemma due_ext s s' t k info :
  last_poll_time s !! k = last_poll_time s' !! k →
  due s t k info = due s' t k info.
Proof. unfold due. by intros ->. Qed.

Lemma sampled_value_ext r w w' k info :
  obd_interface (self w') = obd_interface (self w) →
  sampled_value r w' k info = sampled_value r w k info.
Proof. unfold sampled_value, request_for. by intros ->. Qed.

Lemma untouched_trans w1 w2 w3 k :
  untouched w1 w2 k → untouched w2 w3 k → untouched w1 w3 k.
Proof. intros [] []. split; etrans; eassumption. Qed.

Lemma keeps_entries_trans w1 w2 w3 :
  keeps_entries w1 w2 → keeps_entries w2 w3 → keeps_entries w1 w3.
Proof. intros [] []. split; eauto. Qed.

Lemma resolve_inj k i1 i2 :
  resolve PARAMETERS k = Returned i1 → resolve PARAMETERS k = Returned i2 →
  i1 = i2.
Proof. congruence. Qed.

(** The loop of [update_parameters]. *)
Lemma update_loop_run (r : Readings) prof (ks : list string) : ∀ w,
  PROFILES !! active_profile (self w) = Some prof →
  (∀ k, k ∈ ks → key_ready PARAMETERS w k) →
  ∃ w' added,
    for_each ks (update_parameter PARAMETERS PROFILES r) w = (Returned (), w') ∧
    session_frame w w' ∧
    keeps_entries w w' ∧
    acquired w' = (acquired w ++ added)%list ∧
    (∀ k, k ∈ added.*1 ↔
          k ∈ ks ∧ ∃ info, resolve PARAMETERS k = Returned info ∧
                           due (self w) (time_time r) k info = true) ∧
    (∀ k, k ∉ ks → untouched w w' k) ∧
    (∀ k info, k ∈ ks → resolve PARAMETERS k = Returned info →
       if due (self w) (time_time r) k info
       then overwritten r w w' k info
       else untouched w w' k) ∧
    (∃ n : nat, (n ≤ length ks)%nat ∧ raised_alerts w w' n).
Proof.
  induction ks as [|k0 ks IH]; intros w Hprof Hready.
  - exists w, []. split; [reflexivity|].
    split; [apply session_frame_refl|]. split; [by split|].
    split; [by rewrite app_nil_r|]. split.
    { intros k. cbn. split; [by intros ?%elem_of_nil|by intros [?%elem_of_nil _]]. }
    split; [by split|]. split; [by intros k info ?%elem_of_nil|].
    exists 0. split; [done|]. unfold raised_alerts. lia.
  - destruct (Hready k0) as ([info0 Hres0] & Hh0 & He0);
      [by apply elem_of_cons; left|].
    destruct (update_parameter_run r k0 info0 prof w Hres0 Hprof Hh0 He0)
      as (w1 & Hrun1 & Hfr1 & Hke1 & Hother1 & Hnot1 & Hdue1 & n1 & Hn1 & Hal1).
    assert (PROFILES !! active_profile (self w1) = Some prof) as Hprof1.
    { by rewrite (frame_active_profile _ _ Hfr1). }
    assert (∀ k, k ∈ ks → key_ready PARAMETERS w1 k) as Hready1.
    { intros k Hk. destruct (Hready k) as (Hr & Hh & He);
        [by apply elem_of_cons; right|].
      destruct Hke1 as [Hk1 Hk2]. split; [done|]. split; eauto. }
    destruct (IH w1 Hprof1 Hready1)
      as (w' & added & Hrun & Hfr & Hke & Hacq & Hmem & Hout & Hin & n & Hn & Hal).
    exists w'.
    exists ((if due (self w) (time_time r) k0 info0
             then [(k0, request_for w k0 info0)] else []) ++ added)%list.
    split. { simpl for_each. erewrite bind_returned; eassumption. }
    split; [by eapply session_frame_trans|].
    split; [by eapply keeps_entries_trans|].
    assert (∀ k info, k ≠ k0 →
              due (self w1) (time_time r) k info = due (self w) (time_time r) k info)
      as Hdue_other.
    { intros k info Hne. apply due_ext. by destruct (Hother1 k Hne). }
    split.
    { rewrite Hacq. destruct (due (self w) (time_time r) k0 info0) eqn:Hd.
      - destruct (Hdue1 eq_refl) as [-> _]. by rewrite <- app_assoc.
      - by rewrite (Hnot1 eq_refl). }
    split.
    { intros k. rewrite fmap_app, elem_of_app, Hmem, elem_of_cons.
      destruct (decide (k = k0)) as [->|Hne].
      - destruct (due (self w) (time_time r) k0 info0) eqn:Hd.
        + split; [|intros _; left; cbn; by apply list_elem_of_singleton].
          intros _. split; [by left|]. eauto.
        + rewrite (Hnot1 eq_refl). split.
          * intros [Hnil|[Hk H]]; [by apply elem_of_nil in Hnil|].
            split; [by right|done].
          * intros [_ (info & Hres & Hd')].
            rewrite (resolve_inj _ _ _ Hres Hres0) in Hd'. congruence.
      - split.
        + intros [Hl|[Hk (info & Hres & Hd)]].
          * destruct (due (self w) (time_time r) k0 info0);
              [apply list_elem_of_singleton in Hl; done|by apply elem_of_nil in Hl].
          * split; [by right|]. exists info. split; [done|].
            by rewrite <- Hdue_other.
        + intros [[?|Hk] (info & Hres & Hd)]; [done|].
          right. split; [done|]. exists info. split; [done|].
          by rewrite Hdue_other. }
    split.
    { intros k Hk. eapply untouched_trans.
      - apply Hother1. intros ->. apply Hk. by left.
      - apply Hout. intros ?. apply Hk. by right. }
    split.
    { intros k info Hk Hres. unfold overwritten in *.
      destruct (decide (k = k0)) as [->|Hne].
      - rewrite (resolve_inj _ _ _ Hres Hres0).
        destruct (due (self w) (time_time r) k0 info0) eqn:Hd.
        + destruct (Hdue1 eq_refl) as [_ [Hlp Hcv]].
          destruct (decide (k0 ∈ ks)) as [Hi|Hni].
          * specialize (Hin k0 info0 Hi Hres0).
            destruct (due (self w1) (time_time r) k0 info0).
            -- destruct Hin as [? ?]. split; [done|].
               by rewrite <- (sampled_value_ext r w w1)
                 by apply (frame_obd_interface _ _ Hfr1).
            -- destruct Hin as [Hin1 Hin2]. rewrite Hin1, Hin2. by split.
          * destruct (Hout k0 Hni) as [Ho1 Ho2]. rewrite Ho1, Ho2. by split.
        + rewrite (Hnot1 eq_refl) in *.
          destruct (decide (k0 ∈ ks)) as [Hi|Hni].
          * specialize (Hin k0 info0 Hi Hres0). by rewrite Hd in Hin.
          * by apply Hout.
      - assert (k ∈ ks) as Hi by (apply elem_of_cons in Hk as [?|?]; done).
        specialize (Hin k info Hi Hres). rewrite Hdue_other in Hin by done.
        destruct (due (self w) (time_time r) k info).
        + destruct Hin as [? ?]. split; [done|].
          by rewrite <- (sampled_value_ext r w w1)
            by apply (frame_obd_interface _ _ Hfr1).
        + eapply untouched_trans; [by apply Hother1|done]. }
    exists (n1 + n). split; [cbn; lia|].
    unfold raised_alerts in *. lia.
Qed.

(** [update_parameters] on a monitoring, ready world: the loop [w] to
    [w1], then the save [w1] to [w']. *)
Lemma update_parameters_run (r : Readings) prof w :
  Monitoring w →
  PROFILES !! active_profile (self w) = Some prof →
  (∀ k, k ∈ pr_parameters prof → key_ready PARAMETERS w k) →
  ∃ w1 w' added,
    update_parameters PARAMETERS PROFILES r w = (Returned true, w') ∧
    for_each (pr_parameters prof) (update_parameter PARAMETERS PROFILES r) w
      = (Returned (), w1) ∧
    save_monitoring_data w1 = (Returned (), w') ∧
    self w' = self w1 ∧
    session_frame w w1 ∧
    keeps_entries w w' ∧
    acquired w' = (acquired w ++ added)%list ∧
    (∀ k, k ∈ added.*1 ↔
          k ∈ pr_parameters prof ∧
          ∃ info, resolve PARAMETERS k = Returned info ∧
                  due (self w) (time_time r) k info = true) ∧
    (∀ k, k ∉ pr_parameters prof → untouched w w' k) ∧
    (∀ k info, k ∈ pr_parameters prof → resolve PARAMETERS k = Returned info →
       if due (self w) (time_time r) k info
       then overwritten r w w' k info
       else untouched w w' k) ∧
    (∃ n : nat, raised_alerts w w' n).
Proof.
  unfold Monitoring. intros Hmon Hprof Hready.
  destruct (update_loop_run r prof (pr_parameters prof) w Hprof Hready)
    as (w1 & added & Hrun & Hfr & Hke & Hacq & Hmem & Hout & Hin & n & Hn & Hal).
  destruct (save_monitoring_data_run w1)
    as (w' & Hsave & Hself & Hacq' & _).
  exists w1, w', added.
  split.
  { unfold update_parameters.
    unfold mbind at 1, M_bind at 1, bind at 1, get_self at 1.
    rewrite Hmon. cbn [negb].
    erewrite bind_returned; [|rewrite subscript_pure, Hprof; reflexivity].
    erewrite bind_returned; [|exact Hrun].
    erewrite bind_returned; [|exact Hsave]. reflexivity. }
  split; [done|]. split; [done|]. split; [done|]. split; [done|].
  unfold keeps_entries, untouched, overwritten, raised_alerts in *.
  rewrite Hself, Hacq'.
  split; [done|]. split; [done|]. split; [done|]. split; [done|].
  split; [done|]. by exists n.
Qed.

(** A tick keeps a monitoring world ready. *)
Lemma update_parameters_ready (r : Readings) w :
  Monitoring w → ready PARAMETERS PROFILES w →
  Monitoring (update_parameters PARAMETERS PROFILES r w).2 ∧
  ready PARAMETERS PROFILES (update_parameters PARAMETERS PROFILES r w).2 ∧
  active_profile (self (update_parameters PARAMETERS PROFILES r w).2) =
    active_profile (self w).
Proof.
  intros Hmon (prof & Hprof & Hready).
  destruct (update_parameters_run r prof w Hmon Hprof Hready)
    as (w1 & w' & added & -> & _ & _ & Hself & Hfr & Hke & _).
  cbn [snd]. unfold Monitoring, ready in *. rewrite Hself.
  rewrite (frame_monitoring_active _ _ Hfr), (frame_active_profile _ _ Hfr).
  split; [done|]. split; [|done].
  exists prof. split; [done|].
  intros k Hk. destruct (Hready k Hk) as (Hr & Hh & He).
  destruct Hke as [Hk1 Hk2]. unfold key_ready.
  split; [done|]. split; eauto.
Qed.

(** [update_parameters] while idle does nothing but print. *)
Lemma update_parameters_idle (r : Readings) w :
  Idle w →
  update_parameters PARAMETERS PROFILES r w =
    (Returned false,
     {| self := self w;
        stdout := (stdout w ++ [Text "Monitoring is not active."])%list;
        storage := storage w; acquired := acquired w |}).
Proof.
  unfold Idle. intros Hidle. unfold update_parameters.
  unfold mbind at 1, M_bind at 1, bind at 1, get_self at 1.
  rewrite Hidle. reflexivity.
Qed.

End Tick.

(** ** Stopping a session *)

Lemma stop_monitoring_run (now t0 : Z) w :
  Monitoring w →
  start_time (current_session (monitoring_data (self w))) = Iso t0 →
  ∃ w',
    stop_monitoring now w = (Returned true, w') ∧
    Idle w' ∧
    historical_sessions (monitoring_data (self w')) =
      (historical_sessions (monitoring_data (self w)) ++
       [with_duration (total_seconds (now - t0))
          (current_session (monitoring_data (self w)))])%list ∧
    current_session (monitoring_data (self w')) = empty_session ∧
    metadata (monitoring_data (self w')) = metadata (monitoring_data (self w)) ∧
    active_profile (self w') = active_profile (self w) ∧
    acquired w' = acquired w ∧
    available (storage w') = available (storage w) ∧
    save_calls (storage w') =
      (save_calls (storage w) ++ [monitoring_data (self w')])%list ∧
    (available (storage w) = true →
       persisted (storage w') = Some (monitoring_data (self w'))).
Proof.
  unfold Monitoring. intros Hmon Hstart.
  unfold stop_monitoring.
  unfold mbind at 1, M_bind at 1, bind at 1, get_self at 1.
  rewrite Hmon. cbn [negb].
  erewrite bind_returned; [|rewrite Hstart; reflexivity].
  do 5 (erewrite bind_returned; [|reflexivity]).
  match goal with
  | |- ∃ w', (save_monitoring_data ≫= _) ?w2 = _ ∧ _ => set (w2' := w2)
  end.
  destruct (save_monitoring_data_run w2')
    as (w' & Hsave & Hself & Hacq' & Hav & Hcalls & Hpers & _).
  erewrite bind_returned; [|exact Hsave].
  exists w'. split; [reflexivity|].
  unfold Idle. rewrite Hself, Hacq', Hav, Hcalls.
  subst w2'. cbn in *.
  repeat (split; [done|]).
  intros Havail. by apply Hpers.
Qed.

(** A monitoring flag without a session start time (no sequence of calls
    produces it) makes [stop_monitoring] raise before it changes anything. *)
Lemma stop_monitoring_without_start_time (now : Z) w :
  Monitoring w →
  start_time (current_session (monitoring_data (self w))) = EmptyStr →
  stop_monitoring now w =
    (Raised (ValueError "Invalid isoformat string: ''"), w).
Proof.
  unfold Monitoring. intros Hmon Hstart.
  unfold stop_monitoring.
  unfold mbind at 1, M_bind at 1, bind at 1, get_self at 1.
  rewrite Hmon. cbn [negb].
  erewrite bind_raised; [reflexivity|]. rewrite Hstart. reflexivity.
Qed.


(** ** Sessions: start, ticks, stop *)

Section Sessions.

Variable PARAMETERS : gmap string (gmap string ParamInfo).
Variable PROFILES : gmap string Profile.

(** What any number of ticks keeps of a monitoring, ready world. *)
Lemma before_tick_invariant (rs : nat → Readings) w :
  Monitoring w → ready PARAMETERS PROFILES w →
  ∀ n, let wn := before_tick PARAMETERS PROFILES rs n w in
    Monitoring wn ∧ ready PARAMETERS PROFILES wn ∧
    active_profile (self wn) = active_profile (self w) ∧
    obd_interface (self wn) = obd_interface (self w) ∧
    start_time (current_session (monitoring_data (self wn))) =
      start_time (current_session (monitoring_data (self w))) ∧
    historical_sessions (monitoring_data (self wn)) =
      historical_sessions (monitoring_data (self w)) ∧
    (total_alerts (metadata (monitoring_data (self w))) ≤
     total_alerts (metadata (monitoring_data (self wn))))%nat.
Proof.
  intros Hmon Hready n. induction n as [|n IH]; cbn zeta in *.
  - cbn. by repeat split.
  - destruct IH as (Hm & Hr & Hap & Hobd & Hst & Hhs & Hta).
    cbn [before_tick].
    set (wn := before_tick PARAMETERS PROFILES rs n w) in *.
    destruct (update_parameters_ready PARAMETERS PROFILES (rs n) wn Hm Hr)
      as (Hm' & Hr' & Hap').
    split; [done|]. split; [done|]. split; [congruence|].
    destruct Hr as (prof & Hprof & Hkeys).
    destruct (update_parameters_run PARAMETERS PROFILES (rs n) prof wn Hm Hprof Hkeys)
      as (w1 & w' & added & -> & _ & _ & Hself & Hfr & _ & _ & _ & _ & _ & k & Hal).
    cbn [snd]. rewrite Hself. destruct Hfr. destruct Hal as (Hal & _).
    rewrite Hself in Hal.
    split; [congruence|]. split; [congruence|]. split; [congruence|]. lia.
Qed.

(** [start_monitoring] while idle with a name missing from the catalog. *)
Lemma start_monitoring_unknown_run (w : World) (profile : string)
    (now_meta now_session : Z) :
  Idle w →
  PROFILES !! profile = None →
  start_monitoring PARAMETERS PROFILES profile now_meta now_session w
    = (Raised (KeyError profile), opened profile now_meta now_session w).
Proof.
  intros Hidle Hnone.
  rewrite start_monitoring_idle by done.
  erewrite bind_raised; [reflexivity|].
  rewrite subscript_pure, Hnone. reflexivity.
Qed.

(** C10. A [start] while idle with a profile name that is not in the
    catalog is not atomic: [KeyError] is raised only after the monitoring
    flag has been set, the active profile name overwritten (on the monitor
    and in the document) and the current session replaced by a fresh empty
    one; nothing is saved, and the monitor differs from the one before the
    call. *)
Theorem start_unknown_profile_not_atomic (w : World) (profile : string)
    (now_meta now_session : Z) :
  Idle w →
  PROFILES !! profile = None →
  ∃ w',
    start_monitoring PARAMETERS PROFILES profile now_meta now_session w
      = (Raised (KeyError profile), w') ∧
    Monitoring w' ∧
    active_profile (self w') = profile ∧
    md_active_profile (metadata (monitoring_data (self w'))) = profile ∧
    monitoring_start_time (metadata (monitoring_data (self w'))) = Iso now_meta ∧
    current_session (monitoring_data (self w')) = fresh_session now_session ∧
    current_values (self w') = ∅ ∧
    historical_data (self w') = ∅ ∧
    alerts (self w') = [] ∧
    last_poll_time (self w') = ∅ ∧
    storage w' = storage w ∧
    stdout w' = stdout w ∧
    self w' ≠ self w.
Proof.
  intros Hidle Hnone.
  exists (opened profile now_meta now_session w).
  split; [by apply start_monitoring_unknown_run|].
  unfold Monitoring. cbn.
  repeat (split; [reflexivity|]).
  intros Heq. unfold Idle in Hidle. rewrite <- Heq in Hidle. cbn in Hidle.
  discriminate.
Qed.





Lemma set_vehicle_info_run (vin make model year engine : string) w :
  ∃ w',
    set_vehicle_info vin make model year engine w = (Returned (), w') ∧
    self w' =
      with_monitoring_data (with_metadata (with_vehicle_info
        {| vin := vin; make := make; model := model; year := year;
           engine := engine |})) (self w) ∧
    vehicle_info (metadata (monitoring_data (self w'))) =
      {| vin := vin; make := make; model := model; year := year;
         engine := engine |} ∧
    total_alerts (metadata (monitoring_data (self w'))) =
      total_alerts (metadata (monitoring_data (self w))) ∧
    monitoring_active (self w') = monitoring_active (self w) ∧
    saved_at_end w w'.
Proof.
  unfold set_vehicle_info.
  erewrite bind_returned; [|reflexivity].
  match goal with
  | |- ∃ w', save_monitoring_data ?w2 = _ ∧ _ => set (w2' := w2)
  end.
  destruct (save_monitoring_data_run w2')
    as (w' & Hsave & Hself & Hacq' & Hav & Hcalls & Hpers & _).
  exists w'. split; [done|].
  unfold saved_at_end, synced. rewrite Hself, Hcalls. subst w2'. cbn in *.
  repeat (split; [done|]). intros Havail. by apply Hpers.
Qed.


End Sessions.



(** ** Reachable worlds *)

Section Reachable.

Variable PARAMETERS : gmap string (gmap string ParamInfo).
Variable PROFILES : gmap string Profile.
Hypothesis tables_valid : catalog_valid PARAMETERS PROFILES.

Lemma well_formed_same_self w w' :
  self w' = self w →
  well_formed PARAMETERS PROFILES w → well_formed PARAMETERS PROFILES w'.
Proof.
  unfold well_formed, Monitoring, ready, key_ready. by intros ->.
Qed.

Lemma well_formed_idle w : Idle w → well_formed PARAMETERS PROFILES w.
Proof. unfold well_formed, Monitoring, Idle. intros -> ?. discriminate. Qed.

(** [update_parameters] while monitoring under a profile name the catalog
    does not have. *)
Lemma update_parameters_unknown_run (r : Readings) w :
  Monitoring w →
  PROFILES !! active_profile (self w) = None →
  update_parameters PARAMETERS PROFILES r w =
    (Raised (KeyError (active_profile (self w))), w).
Proof.
  unfold Monitoring. intros Hmon Hnone. unfold update_parameters.
  unfold mbind at 1, M_bind at 1, bind at 1, get_self at 1.
  rewrite Hmon. cbn [negb].
  erewrite bind_raised; [reflexivity|].
  rewrite subscript_pure, Hnone. reflexivity.
Qed.

Lemma perform_well_formed (op : operation) w :
  well_formed PARAMETERS PROFILES w →
  well_formed PARAMETERS PROFILES (perform PARAMETERS PROFILES op w).
Proof.
  intros Hwf.
  destruct op as [vin make model year engine|profile t1 t2|now|r];
    cbn [perform].
  - destruct (set_vehicle_info_run vin make model year engine w)
      as (w' & -> & Hself & _).
    cbn [snd]. revert Hwf.
    unfold well_formed, Monitoring, ready, key_ready. rewrite Hself. done.
  - destruct (monitoring_active (self w)) eqn:Hact.
    + rewrite (start_monitoring_active_run PARAMETERS PROFILES w profile t1 t2 Hact).
      by apply (well_formed_same_self w).
    + destruct (PROFILES !! profile) as [prof|] eqn:Hprof.
      * destruct (start_monitoring_run PARAMETERS PROFILES profile prof t1 t2 w
                    Hact Hprof (tables_valid profile prof Hprof))
          as (w' & -> & _ & _ & _ & Hready & _ & Hst & _).
        cbn [snd]. intros _. split; [eauto|done].
      * rewrite (start_monitoring_unknown_run PARAMETERS PROFILES w profile
                   t1 t2 Hact Hprof).
        cbn [snd]. intros _. split; [by exists t2|].
        cbn. rewrite Hprof. by intros [? ?].
  - destruct (monitoring_active (self w)) eqn:Hact.
    + destruct (Hwf Hact) as [[t0 Hst] _].
      destruct (stop_monitoring_run now t0 w Hact Hst) as (w' & -> & Hidle & _).
      by apply well_formed_idle.
    + rewrite (stop_monitoring_idle_run w now Hact).
      by apply (well_formed_same_self w).
  - destruct (monitoring_active (self w)) eqn:Hact.
    + destruct (Hwf Hact) as [[t0 Hst] Hready].
      destruct (PROFILES !! active_profile (self w)) as [prof|] eqn:Hprof.
      * specialize (Hready ltac:(eauto)).
        destruct (before_tick_invariant PARAMETERS PROFILES (λ _, r) w Hact
                    Hready 1) as (Hm & Hr & _ & _ & Hst' & _).
        cbn [before_tick] in *. intros _. split; [|done].
        exists t0. congruence.
      * rewrite (update_parameters_unknown_run r w Hact Hprof). done.
    + rewrite (update_parameters_idle PARAMETERS PROFILES r w Hact).
      by apply (well_formed_same_self w).
Qed.

(** Every reachable world is well formed. *)
Lemma reachable_well_formed w :
  reachable PARAMETERS PROFILES w → well_formed PARAMETERS PROFILES w.
Proof.
  induction 1 as [w obd profile Hnew|w op _ IH].
  - apply well_formed_idle. unfold Idle. by rewrite Hnew.
  - by apply perform_well_formed.
Qed.

End Reachable.

(** Every profile of the shipped catalog references parameters of the
    shipped table only. *)
Lemma monitoring_tables_valid :
  catalog_valid MONITORING_PARAMETERS MONITORING_PROFILES.
Proof.
  assert (map_Forall (λ _ prof,
            first_unresolved MONITORING_PARAMETERS (pr_parameters prof) = None)
            MONITORING_PROFILES) as H.
  { unfold MONITORING_PROFILES.
    repeat (rewrite list_to_map_cons; apply map_Forall_insert_2;
            [vm_compute; reflexivity|]).
    apply map_Forall_empty. }
  intros name prof Hlookup. exact (H name prof Hlookup).
Qed.

(** ** The polling schedule *)

Section Schedule.

Variable PARAMETERS : gmap string (gmap string ParamInfo).
Variable PROFILES : gmap string Profile.

Lemma due_iff w (r : Readings) k info :
  due (self w) (time_time r) k info = true ↔
  (polling_rate info <= time_time r - last_polled w k)%Q.
Proof. unfold due, last_polled. apply Qle_bool_iff. Qed.

Lemma sampled_between_added w w' added k :
  acquired w' = (acquired w ++ added)%list →
  sampled_between w w' k ↔ k ∈ added.*1.
Proof.
  intros Hacq. unfold sampled_between. split.
  - intros (added' & Hacq' & Hk). rewrite Hacq in Hacq'.
    apply app_inv_head in Hacq'. by subst.
  - intros Hk. by exists added.
Qed.

(** One tick, for a key of the active profile. *)
Lemma tick_samples_iff_due (w : World) (r : Readings) prof k info :
  (Monitoring w → ready PARAMETERS PROFILES w) →
  PROFILES !! active_profile (self w) = Some prof →
  k ∈ pr_parameters prof →
  resolve PARAMETERS k = Returned info →
  let w' := (update_parameters PARAMETERS PROFILES r w).2 in
  (sampled_between w w' k ↔
     Monitoring w ∧ (polling_rate info <= time_time r - last_polled w k)%Q) ∧
  (sampled_between w w' k → overwritten r w w' k info) ∧
  (¬ sampled_between w w' k → untouched w w' k).
Proof.
  intros Hready Hprof Hk Hres w'. subst w'.
  destruct (monitoring_active (self w)) eqn:Hact.
  - destruct (Hready Hact) as (prof' & Hprof' & Hkeys).
    assert (prof' = prof) as -> by congruence.
    destruct (update_parameters_run PARAMETERS PROFILES r prof w Hact Hprof Hkeys)
      as (w1 & w' & added & -> & _ & _ & _ & _ & _ & Hacq & Hmem & _ & Hin & _).
    cbn [snd]. rewrite (sampled_between_added _ _ _ _ Hacq), Hmem.
    specialize (Hin k info Hk Hres). rewrite <- due_iff.
    destruct (due (self w) (time_time r) k info) eqn:Hd.
    + assert (k ∈ pr_parameters prof ∧
              ∃ info0, resolve PARAMETERS k = Returned info0 ∧
                       due (self w) (time_time r) k info0 = true) as Hyes.
      { split; [done|]. by exists info. }
      split; [|split].
      * split; [intros _; by split|]. by intros _.
      * intros _. exact Hin.
      * intros Hn. by exfalso.
    + assert (¬ (k ∈ pr_parameters prof ∧
              ∃ info0, resolve PARAMETERS k = Returned info0 ∧
                       due (self w) (time_time r) k info0 = true)) as Hno.
      { intros [_ (info' & Hres' & Hd')].
        assert (info' = info) as -> by congruence. congruence. }
      split; [|split].
      * split; [by intros ?%Hno|by intros [_ ?]].
      * by intros ?%Hno.
      * intros _. exact Hin.
  - rewrite (update_parameters_idle PARAMETERS PROFILES r w Hact). cbn [snd].
    assert (∀ k, ¬ sampled_between w
              {| self := self w;
                 stdout := (stdout w ++ [Text "Monitoring is not active."])%list;
                 storage := storage w; acquired := acquired w |} k) as Hnone.
    { intros k' Hs.
      apply (sampled_between_added _ _ [] k') in Hs;
        [by apply elem_of_nil in Hs|by rewrite app_nil_r]. }
    split; [|split].
    + split; [by intros ?%Hnone|]. unfold Monitoring. intros [? _]. congruence.
    + by intros ?%Hnone.
    + intros _. by split.
Qed.

Lemma next_multiple (N m n : nat) :
  (0 < N)%nat → m `mod` N = 0%nat → (m < n)%nat → (n ≤ m + N)%nat →
  n `mod` N = 0%nat ↔ n = (m + N)%nat.
Proof.
  intros HN Hm Hlt Hle.
  pose proof (Nat.Div0.div_mod n N) as Hn.
  pose proof (Nat.Div0.div_mod m N) as Hm'.
  pose proof (Nat.mod_upper_bound n N ltac:(lia)) as Hb.
  split.
  - intros H0. rewrite H0 in Hn. rewrite Hm in Hm'.
    set (q' := (n / N)%nat) in *. set (q := (m / N)%nat) in *.
    assert (q < q')%nat by nia.
    assert (q' < q + 2)%nat by nia.
    assert (q' = q + 1)%nat as Hq by lia.
    rewrite Hq in Hn. lia.
  - intros ->. rewrite <- (Nat.mul_1_l N) at 1.
    rewrite Nat.Div0.mod_add. exact Hm.
Qed.

(** With whole-second ticks, the difference of two tick times against a
    whole polling rate. *)
Lemma due_between_ticks (rate t0 tn tm : Q) (N n m : nat) :
  (rate == inject_Z (Z.of_nat N))%Q →
  (tn == t0 + inject_Z (Z.of_nat n))%Q →
  (tm == t0 + inject_Z (Z.of_nat m))%Q →
  (rate <= tn - tm)%Q ↔ (N + m ≤ n)%nat.
Proof.
  intros Hrate Hn Hm. rewrite Hrate, Hn, Hm.
  assert (t0 + inject_Z (Z.of_nat n) - (t0 + inject_Z (Z.of_nat m))
          == inject_Z (Z.of_nat n - Z.of_nat m))%Q as ->.
  { unfold Zminus. rewrite inject_Z_plus, inject_Z_opp. ring. }
  rewrite <- Zle_Qle. lia.
Qed.

(** One step of the periodic schedule. *)
Lemma schedule_step (rs : nat → Readings) (N : nat) (t0 : Q) w prof k info n :
  Monitoring w → ready PARAMETERS PROFILES w →
  PROFILES !! active_profile (self w) = Some prof →
  k ∈ pr_parameters prof →
  resolve PARAMETERS k = Returned info →
  (polling_rate info == inject_Z (Z.of_nat N))%Q →
  (0 < N)%nat →
  (∀ i, time_time (rs i) == t0 + inject_Z (Z.of_nat i))%Q →
  (polling_rate info <= t0)%Q →
  polled_on_period rs N n w k →
  let w' := (update_parameters PARAMETERS PROFILES (rs n) w).2 in
  (sampled_between w w' k ↔ n `mod` N = 0%nat) ∧
  polled_on_period rs N (S n) w' k.
Proof.
  intros Hmon Hready Hprof Hk Hres Hrate HN Htime Ht0 Hinv w'.
  destruct (tick_samples_iff_due w (rs n) prof k info (λ _, Hready) Hprof Hk Hres)
    as (Hiff & Hyes & Hno).
  fold w' in Hiff, Hyes, Hno.
  assert ((polling_rate info <= time_time (rs n) - last_polled w k)%Q ↔
          n `mod` N = 0%nat) as Hdue.
  { destruct Hinv as [[-> Hlp]|(m & Hlt & Hle & Hm & Hlp)];
      unfold last_polled; rewrite Hlp; cbn [default].
    - rewrite Nat.Div0.mod_0_l. split; [done|]. intros _.
      pose proof (Htime 0%nat) as H0.
      change (inject_Z (Z.of_nat 0)) with 0%Q in H0. unfold id. lra.
    - unfold id.
      rewrite (due_between_ticks _ t0 _ _ N n m Hrate (Htime n) (Htime m)).
      rewrite (next_multiple N m n HN Hm Hlt Hle). lia. }
  split.
  { rewrite Hiff, Hdue. split; [by intros [_ ?]|by intros ?]. }
  right.
  destruct (decide (n `mod` N = 0%nat)) as [Hz|Hnz].
  - exists n. split; [lia|]. split; [lia|]. split; [done|].
    apply Hyes. apply Hiff. split; [done|]. by apply Hdue.
  - assert (¬ sampled_between w w' k) as Hns.
    { intros Hs. apply Hnz, Hdue. by apply Hiff. }
    destruct (Hno Hns) as [Hlp' _].
    destruct Hinv as [[-> Hlp]|(m & Hlt & Hle & Hm & Hlp)].
    + by rewrite Nat.Div0.mod_0_l in Hnz.
    + exists m. split; [lia|].
      split.
      { destruct (decide (n = (m + N)%nat)) as [Heq|Hne]; [|lia].
        exfalso. apply Hnz. by apply (next_multiple N m n). }
      split; [done|]. by rewrite Hlp'.
Qed.

(** The periodic schedule: a parameter of whole period [N] seconds, ticked
    every second from a freshly started session, is sampled at the ticks
    that are multiples of [N] and at no others. *)
Lemma periodic_schedule (rs : nat → Readings) (N : nat) (t0 : Q) w prof k info :
  Monitoring w → ready PARAMETERS PROFILES w →
  PROFILES !! active_profile (self w) = Some prof →
  k ∈ pr_parameters prof →
  resolve PARAMETERS k = Returned info →
  last_poll_time (self w) !! k = Some 0%Q →
  (polling_rate info == inject_Z (Z.of_nat N))%Q →
  (0 < N)%nat →
  (∀ i, time_time (rs i) == t0 + inject_Z (Z.of_nat i))%Q →
  (polling_rate info <= t0)%Q →
  ∀ n,
    sampled_between (before_tick PARAMETERS PROFILES rs n w)
                    (before_tick PARAMETERS PROFILES rs (S n) w) k
    ↔ n `mod` N = 0%nat.
Proof.
  intros Hmon Hready Hprof Hk Hres Hlp Hrate HN Htime Ht0.
  assert (∀ n, polled_on_period rs N n
                 (before_tick PARAMETERS PROFILES rs n w) k) as Hinv.
  { induction n as [|n IH]; [by left|].
    destruct (before_tick_invariant PARAMETERS PROFILES rs w Hmon Hready n)
      as (Hm & Hr & Hap & _).
    rewrite <- Hap in Hprof.
    cbn [before_tick].
    by apply (schedule_step rs N t0 _ prof k info n Hm Hr Hprof Hk Hres
                Hrate HN Htime Ht0 IH). }
  intros n.
  destruct (before_tick_invariant PARAMETERS PROFILES rs w Hmon Hready n)
    as (Hm & Hr & Hap & _).
  rewrite <- Hap in Hprof.
  cbn [before_tick].
  by apply (schedule_step rs N t0 _ prof k info n Hm Hr Hprof Hk Hres
              Hrate HN Htime Ht0 (Hinv n)).
Qed.

(** C2. At every tick, a key of the active profile is sampled (a value is
    requested, the current value overwritten, the last-poll time set to
    now) if and only if the engine is monitoring and now minus its
    last-poll time is at least its own polling rate; otherwise its entries
    are untouched.  This holds in every world in which a monitoring engine
    has its profile set up, hence, when every profile of the catalog is
    valid, in every world a client can reach.  [start_monitoring] resets the last-poll times to 0, so
    every parameter of the profile is due at the first tick (the clock
    reading being at least the polling rate), and a parameter of period
    [N] under one-second ticks is sampled at the ticks 0, [N], [2N], ... and
    at no others. *)
Theorem parameter_sampled_iff_due (w0 : World) (profile : string)
    (prof : Profile) (now_meta now_session : Z) (rs : nat → Readings) :
  Idle w0 →
  PROFILES !! profile = Some prof →
  first_unresolved PARAMETERS (pr_parameters prof) = None →
  (∀ (w : World) (r : Readings) prof' k info,
     (Monitoring w → ready PARAMETERS PROFILES w) →
     PROFILES !! active_profile (self w) = Some prof' →
     k ∈ pr_parameters prof' →
     resolve PARAMETERS k = Returned info →
     let w' := (update_parameters PARAMETERS PROFILES r w).2 in
     (sampled_between w w' k ↔
        Monitoring w ∧
        (polling_rate info <= time_time r - last_polled w k)%Q) ∧
     (sampled_between w w' k → overwritten r w w' k info) ∧
     (¬ sampled_between w w' k → untouched w w' k)) ∧
  (catalog_valid PARAMETERS PROFILES →
   ∀ (w : World) (r : Readings) prof' k,
     reachable PARAMETERS PROFILES w →
     PROFILES !! active_profile (self w) = Some prof' →
     k ∈ pr_parameters prof' →
     ∃ info, resolve PARAMETERS k = Returned info ∧
       let w' := (update_parameters PARAMETERS PROFILES r w).2 in
       (sampled_between w w' k ↔
          Monitoring w ∧
          (polling_rate info <= time_time r - last_polled w k)%Q) ∧
       (sampled_between w w' k → overwritten r w w' k info) ∧
       (¬ sampled_between w w' k → untouched w w' k)) ∧
  ∃ w1,
    start_monitoring PARAMETERS PROFILES profile now_meta now_session w0
      = (Returned true, w1) ∧
    (∀ k info,
       k ∈ pr_parameters prof →
       resolve PARAMETERS k = Returned info →
       last_poll_time (self w1) !! k = Some 0%Q ∧
       ((polling_rate info <= time_time (rs 0%nat))%Q →
        sampled_between w1 (before_tick PARAMETERS PROFILES rs 1 w1) k)) ∧
    (∀ k info (N : nat) (t0 : Q),
       k ∈ pr_parameters prof →
       resolve PARAMETERS k = Returned info →
       (polling_rate info == inject_Z (Z.of_nat N))%Q →
       (0 < N)%nat →
       (∀ i, time_time (rs i) == t0 + inject_Z (Z.of_nat i))%Q →
       (polling_rate info <= t0)%Q →
       ∀ n,
         sampled_between (before_tick PARAMETERS PROFILES rs n w1)
                         (before_tick PARAMETERS PROFILES rs (S n) w1) k
         ↔ n `mod` N = 0%nat).
Proof.
  intros Hidle Hprof Hkeys.
  split.
  { intros w r prof' k info Hready Hprof' Hk Hres.
    by apply (tick_samples_iff_due w r prof' k info). }
  split.
  { intros Hvalid w r prof' k Hreach Hprof' Hk.
    pose proof (proj1 (first_unresolved_None PARAMETERS (pr_parameters prof'))
                  (Hvalid _ _ Hprof') k Hk) as [info Hres].
    exists info. split; [done|].
    apply (tick_samples_iff_due w r prof' k info); [|done..].
    intros Hmon.
    destruct (reachable_well_formed PARAMETERS PROFILES Hvalid w Hreach Hmon)
      as [_ Hready].
    apply Hready. eauto. }
  destruct (start_monitoring_run PARAMETERS PROFILES profile prof
              now_meta now_session w0 Hidle Hprof Hkeys)
    as (w1 & Hstart & Hmon & Hap & _ & Hready & Hlp & _).
  rewrite <- Hap in Hprof.
  exists w1. split; [done|]. split.
  - intros k info Hk Hres. split; [by apply Hlp|].
    intros Hdue. cbn [before_tick].
    apply (tick_samples_iff_due w1 (rs 0%nat) prof k info (λ _, Hready)
             Hprof Hk Hres).
    split; [done|]. unfold last_polled. rewrite (Hlp k Hk). cbn. lra.
  - intros k info N t0 Hk Hres Hrate HN Htime Ht0.
    by apply (periodic_schedule rs N t0 w1 prof k info Hmon Hready Hprof
                Hk Hres (Hlp k Hk) Hrate HN Htime Ht0).
Qed.

End Schedule.




(** ** The total-alert counter *)

Section Respects.

Variable R : VehicleMonitor → VehicleMonitor → Prop.
Hypothesis R_refl : ∀ s, R s s.
Hypothesis R_trans : ∀ s1 s2 s3, R s1 s2 → R s2 s3 → R s1 s3.

Lemma respects_ret {A} (a : A) : respects R (mret a : M A).
Proof. intros w. apply R_refl. Qed.

Lemma respects_raise {A} e : respects R (raise e : M A).
Proof. intros w. apply R_refl. Qed.

Lemma respects_bind {A B} (m : M A) (k : A → M B) :
  respects R m → (∀ a, respects R (k a)) → respects R (m ≫= k).
Proof.
  intros Hm Hk w. unfold mbind, M_bind, bind.
  specialize (Hm w). destruct (m w) as [[a|e] w1]; cbn in *; [|done].
  eapply R_trans; [exact Hm|apply Hk].
Qed.

Lemma respects_for_each {A} (xs : list A) (body : A → M ()) :
  (∀ x, respects R (body x)) → respects R (for_each xs body).
Proof.
  intros Hbody. induction xs as [|x xs IH]; cbn [for_each].
  - apply respects_ret.
  - apply respects_bind; [apply Hbody|intros _; apply IH].
Qed.

Lemma respects_get_self : respects R get_self.
Proof. intros w. apply R_refl. Qed.

Lemma respects_print o : respects R (print o).
Proof. intros w. apply R_refl. Qed.

Lemma respects_subscript {V} (d : gmap string V) k : respects R (subscript d k).
Proof. intros w. rewrite subscript_pure. apply R_refl. Qed.

Lemma respects_fromisoformat s : respects R (fromisoformat s).
Proof. intros w. destruct s; apply R_refl. Qed.

Lemma respects_param_info_of PARAMETERS k :
  respects R (param_info_of PARAMETERS k).
Proof. intros w. rewrite param_info_of_resolve. apply R_refl. Qed.

Lemma respects_acquire r k a : respects R (acquire r k a).
Proof. intros w. apply R_refl. Qed.

Lemma respects_save : respects R save_monitoring_data.
Proof.
  intros w. destruct (save_monitoring_data_run w) as (w' & Hrun & Hself & _).
  rewrite Hrun. cbn [snd]. rewrite Hself. apply R_refl.
Qed.

Lemma respects_modify_self f : (∀ s, R s (f s)) → respects R (modify_self f).
Proof. intros Hf w. apply Hf. Qed.

Lemma respects_determine_parameter_status PARAMETERS k v :
  respects R (determine_parameter_status PARAMETERS k v).
Proof.
  apply respects_bind; [apply respects_param_info_of|].
  intros info. apply respects_ret.
Qed.

End Respects.

Lemma same_count_refl s : same_count s s.
Proof. reflexivity. Qed.

Lemma same_count_trans s1 s2 s3 :
  same_count s1 s2 → same_count s2 s3 → same_count s1 s3.
Proof. unfold same_count. congruence. Qed.

Lemma counted_alerts_refl s : counted_alerts s s.
Proof. exists 0. lia. Qed.

Lemma counted_alerts_trans s1 s2 s3 :
  counted_alerts s1 s2 → counted_alerts s2 s3 → counted_alerts s1 s3.
Proof. intros (n1 & ? & ? & ?) (n2 & ? & ? & ?). exists (n1 + n2). lia. Qed.

(** Decomposing a computation along its binds, loops and branches. *)
Ltac respects_step Hrefl Htrans :=
  lazymatch goal with
  | |- respects _ (mret _) => apply (respects_ret _ Hrefl)
  | |- respects _ (raise _) => apply (respects_raise _ Hrefl)
  | |- respects _ get_self => apply (respects_get_self _ Hrefl)
  | |- respects _ (print _) => apply (respects_print _ Hrefl)
  | |- respects _ (subscript _ _) => apply (respects_subscript _ Hrefl)
  | |- respects _ (fromisoformat _) => apply (respects_fromisoformat _ Hrefl)
  | |- respects _ (param_info_of _ _) =>
      apply (respects_param_info_of _ Hrefl)
  | |- respects _ (acquire _ _ _) => apply (respects_acquire _ Hrefl)
  | |- respects _ save_monitoring_data => apply (respects_save _ Hrefl)
  | |- respects _ (determine_parameter_status _ _ _) =>
      apply (respects_determine_parameter_status _ Hrefl Htrans)
  | |- respects _ (mbind _ _) => apply (respects_bind _ Htrans); [|intros ?]
  | |- respects _ (for_each _ _) =>
      apply (respects_for_each _ Hrefl Htrans); intros ?
  | |- respects _ (let _ := _ in _) => cbv zeta
  | |- respects _ (if ?b then _ else _) => destruct b
  | |- respects _ (match ?v with Some _ => _ | None => _ end) => destruct v
  end.

Ltac respects_with Hrefl Htrans := repeat respects_step Hrefl Htrans.

Section AlertCounter.

Variable PARAMETERS : gmap string (gmap string ParamInfo).
Variable PROFILES : gmap string Profile.

Lemma set_vehicle_info_same_count vin make model year engine :
  respects same_count (set_vehicle_info vin make model year engine).
Proof.
  unfold set_vehicle_info.
  respects_with same_count_refl same_count_trans.
  all: try (apply respects_modify_self; reflexivity).
Qed.

Lemma start_monitoring_same_count profile now_meta now_session :
  respects same_count
    (start_monitoring PARAMETERS PROFILES profile now_meta now_session).
Proof.
  unfold start_monitoring, initialize_parameter.
  respects_with same_count_refl same_count_trans.
  all: try (apply respects_modify_self; reflexivity).
Qed.

Lemma stop_monitoring_same_count now :
  respects same_count (stop_monitoring now).
Proof.
  unfold stop_monitoring.
  respects_with same_count_refl same_count_trans.
  all: try (apply respects_modify_self; reflexivity).
Qed.

Lemma alert_manager_counted k v ts st :
  respects counted_alerts (alert_manager PROFILES k v ts st).
Proof.
  intros w. unfold alert_manager.
  unfold mbind at 1, M_bind at 1, bind at 1, get_self at 1.
  destruct (PROFILES !! active_profile (self w)) as [prof|] eqn:Hprof.
  - erewrite bind_returned; [|rewrite subscript_pure, Hprof; reflexivity].
    destruct (raises_alert (alert_threshold prof) st).
    + exists 1. run. rewrite !length_app. cbn. lia.
    + apply counted_alerts_refl.
  - erewrite bind_raised; [|rewrite subscript_pure, Hprof; reflexivity].
    apply counted_alerts_refl.
Qed.

Lemma update_parameters_counted r :
  respects counted_alerts (update_parameters PARAMETERS PROFILES r).
Proof.
  unfold update_parameters, update_parameter, record_sample.
  repeat first
    [ apply alert_manager_counted
    | respects_step counted_alerts_refl counted_alerts_trans ].
  all: apply respects_modify_self; intros s; exists 0; cbn; lia.
Qed.

Lemma counted_alerts_le s s' :
  counted_alerts s s' →
  (total_alerts (metadata (monitoring_data s)) ≤
   total_alerts (metadata (monitoring_data s')))%nat.
Proof. intros (n & ? & _). lia. Qed.

Lemma perform_alert_count op w :
  (alert_count w ≤ alert_count (perform PARAMETERS PROFILES op w))%nat.
Proof.
  unfold alert_count.
  destruct op as [vin make model year engine|profile t1 t2|now|r];
    cbn [perform].
  - by rewrite (set_vehicle_info_same_count vin make model year engine w).
  - by rewrite (start_monitoring_same_count profile t1 t2 w).
  - by rewrite (stop_monitoring_same_count now w).
  - apply counted_alerts_le, (update_parameters_counted r w).
Qed.

End AlertCounter.

Lemma perform_all_alert_count PARAMETERS PROFILES (ops : list operation) :
  ∀ w, (alert_count w ≤ alert_count (perform_all PARAMETERS PROFILES ops w))%nat.
Proof.
  induction ops as [|op ops IH]; intros w; cbn; [done|].
  etrans; [apply (perform_alert_count PARAMETERS PROFILES op w)|apply IH].
Qed.

(** C8. The total-alert counter of the document never decreases: every
    operation of the engine leaves it equal or larger, and so does every
    sequence of operations.  Only [update_parameters] changes it, and by
    exactly the number of alert records it appends, one per raised alert.
    A parameter that breaches its threshold again raises again: with the
    engine speed at 7000 rpm on two ticks one second apart, the counter of a
    new standard session goes from 0 to 2. *)
Theorem total_alerts_never_decreases
    (PARAMETERS : gmap string (gmap string ParamInfo))
    (PROFILES : gmap string Profile) :
  (∀ op w, (alert_count w ≤ alert_count (perform PARAMETERS PROFILES op w))%nat) ∧
  (∀ ops w,
     (alert_count w ≤ alert_count (perform_all PARAMETERS PROFILES ops w))%nat) ∧
  (∀ r w, counted_alerts (self w)
            (self (perform PARAMETERS PROFILES (UpdateParameters r) w))) ∧
  (∀ op w, (∀ r, op ≠ UpdateParameters r) →
     alert_count (perform PARAMETERS PROFILES op w) = alert_count w) ∧
  alert_count
    (perform_all MONITORING_PARAMETERS MONITORING_PROFILES
       [StartMonitoring "STANDARD" 0 0;
        UpdateParameters (overspeed_readings 1000);
        UpdateParameters (overspeed_readings 1001)]
       (new_world false "STANDARD")) = 2%nat.
Proof.
  split; [apply perform_alert_count|].
  split; [apply perform_all_alert_count|].
  split; [intros r w; apply update_parameters_counted|].
  split; [|vm_compute; reflexivity].
  intros op w Hop. unfold alert_count.
  destruct op as [vin make model year engine|profile t1 t2|now|r]; cbn [perform].
  - apply (set_vehicle_info_same_count vin make model year engine w).
  - apply (start_monitoring_same_count PARAMETERS PROFILES profile t1 t2 w).
  - apply (stop_monitoring_same_count now w).
  - by destruct (Hop r).
Qed.

(** ** Merging the trouble-code databases *)

Lemma merge_new_2007_fold (merged0 new_2007_dtcs : gmap string DtcInfo) c :
  map_fold merge_new_2007_entry merged0 new_2007_dtcs !! c =
    match new_2007_dtcs !! c with
    | Some n => Some (after_new_2007 (merged0 !! c) n)
    | None => merged0 !! c
    end.
Proof.
  revert c.
  apply (map_fold_weak_ind (λ r (m : gmap string DtcInfo), ∀ c,
    r !! c = match m !! c with
             | Some n => Some (after_new_2007 (merged0 !! c) n)
             | None => merged0 !! c
             end)).
  - intros c. by rewrite lookup_empty.
  - intros i x m r Hnone IH c.
    unfold merge_new_2007_entry. rewrite (IH i), Hnone.
    destruct (decide (c = i)) as [->|Hne].
    + rewrite (lookup_insert_eq m). destruct (merged0 !! i) as [p|] eqn:Hp.
      * rewrite lookup_insert_eq. cbn.
        by destruct (negb (truthy (description p)) && truthy (description x)).
      * by rewrite lookup_insert_eq.
    + rewrite (lookup_insert_ne m) by done. rewrite <- (IH c).
      destruct (merged0 !! i); by rewrite lookup_insert_ne.
Qed.

Lemma merge_rac_fold (merged0 rac_dtcs : gmap string DtcInfo) c :
  map_fold merge_rac_entry merged0 rac_dtcs !! c =
    match rac_dtcs !! c with
    | Some r => Some (after_rac (merged0 !! c) r)
    | None => merged0 !! c
    end.
Proof.
  revert c.
  apply (map_fold_weak_ind (λ r (m : gmap string DtcInfo), ∀ c,
    r !! c = match m !! c with
             | Some x => Some (after_rac (merged0 !! c) x)
             | None => merged0 !! c
             end)).
  - intros c. by rewrite lookup_empty.
  - intros i x m r Hnone IH c.
    unfold merge_rac_entry. rewrite (IH i), Hnone.
    destruct (decide (c = i)) as [->|Hne].
    + rewrite (lookup_insert_eq m).
      destruct (merged0 !! i) as [p|] eqn:Hp; by rewrite lookup_insert_eq.
    + rewrite (lookup_insert_ne m) by done. rewrite <- (IH c).
      destruct (merged0 !! i); by rewrite lookup_insert_ne.
Qed.

(** The merged entry of every code. *)
Lemma merge_dtc_databases_lookup (primary_dtcs new_2007_dtcs rac_dtcs
    : gmap string DtcInfo) c :
  merge_dtc_databases primary_dtcs new_2007_dtcs rac_dtcs !! c =
    let merged1 :=
      match new_2007_dtcs !! c with
      | Some n => Some (after_new_2007 (primary_dtcs !! c) n)
      | None => primary_dtcs !! c
      end in
    match rac_dtcs !! c with
    | Some r => Some (after_rac merged1 r)
    | None => merged1
    end.
Proof.
  unfold merge_dtc_databases. cbn zeta.
  rewrite merge_rac_fold, merge_new_2007_fold.
  by rewrite (right_id_L ∅ (∪)).
Qed.

Lemma truthy_iff s : truthy s = true ↔ s ≠ "".
Proof.
  unfold truthy. rewrite negb_true_iff, <- not_true_iff_false, String.eqb_eq.
  done.
Qed.

Lemma not_truthy_iff s : truthy s = false ↔ s = "".
Proof.
  unfold truthy. rewrite negb_false_iff, String.eqb_eq. done.
Qed.

Lemma after_new_2007_description p n :
  (description p ≠ "" → description (after_new_2007 (Some p) n) = description p) ∧
  (description p = "" → description (after_new_2007 (Some p) n) = description n).
Proof.
  cbn. split; intros Hd.
  - apply truthy_iff in Hd. by rewrite Hd.
  - apply not_truthy_iff in Hd as Hd'. rewrite Hd'. cbn [negb andb].
    destruct (truthy (description n)) eqn:Ht; [done|].
    apply not_truthy_iff in Ht. congruence.
Qed.

(** C9, as the code has it.  The merge goes through the sources in order,
    primary, then new_2007, then rac.  For a code of the primary source the
    merged record keeps the primary's code, title, possible causes and
    diagnostic aids, and its description unless that is empty and new_2007
    has the code, in which case it takes the description of new_2007; rac
    never fills a description.  A code absent from the earlier sources is
    added as the later source has it.  The provenance of a merged record is
    the comma-separated list of the tags of the sources that have the code,
    in source order. *)
Theorem merge_fills_gaps_from_new_2007 (primary_dtcs new_2007_dtcs rac_dtcs
    : gmap string DtcInfo) (c : string) :
  tagged "primary" primary_dtcs →
  tagged "new_2007" new_2007_dtcs →
  tagged "rac" rac_dtcs →
  let merged_dtcs := merge_dtc_databases primary_dtcs new_2007_dtcs rac_dtcs in
  (∀ p, primary_dtcs !! c = Some p →
     ∃ m, merged_dtcs !! c = Some m ∧
          code m = code p ∧ title m = title p ∧
          possible_causes m = possible_causes p ∧
          diagnostic_aids m = diagnostic_aids p ∧
          (description p ≠ "" → description m = description p) ∧
          (description p = "" →
             match new_2007_dtcs !! c with
             | Some n => description m = description n
             | None => description m = ""
             end)) ∧
  (primary_dtcs !! c = None →
     ∀ n, new_2007_dtcs !! c = Some n →
       ∃ m, merged_dtcs !! c = Some m ∧
            code m = code n ∧ title m = title n ∧
            description m = description n ∧
            possible_causes m = possible_causes n ∧
            diagnostic_aids m = diagnostic_aids n ∧
            (rac_dtcs !! c = None → m = n)) ∧
  (primary_dtcs !! c = None → new_2007_dtcs !! c = None →
     merged_dtcs !! c = rac_dtcs !! c) ∧
  (∀ m, merged_dtcs !! c = Some m →
     split "," (source m) =
       contributing_sources primary_dtcs new_2007_dtcs rac_dtcs c).
Proof.
  intros Hp Hn Hr merged_dtcs.
  pose proof (merge_dtc_databases_lookup primary_dtcs new_2007_dtcs rac_dtcs c)
    as Hm. fold merged_dtcs in Hm. cbn zeta in Hm.
  split; [|split; [|split]].
  - intros p Hpc. rewrite Hm, Hpc.
    destruct (new_2007_dtcs !! c) as [n|] eqn:Hnc.
    + destruct (after_new_2007_description p n) as [Hfull Hempty].
      destruct (rac_dtcs !! c) as [r|] eqn:Hrc;
        (eexists; split; [reflexivity|]); by repeat split.
    + destruct (rac_dtcs !! c) as [r|] eqn:Hrc;
        (eexists; split; [reflexivity|]); by repeat split.
  - intros Hpc n Hnc. rewrite Hm, Hpc, Hnc.
    destruct (rac_dtcs !! c) as [r|] eqn:Hrc; cbn;
      eexists; (split; [reflexivity|]); cbn; by repeat split.
  - intros Hpc Hnc. rewrite Hm, Hpc, Hnc.
    by destruct (rac_dtcs !! c).
  - intros m. rewrite Hm. unfold contributing_sources.
    destruct (primary_dtcs !! c) as [p|] eqn:Hpc;
      destruct (new_2007_dtcs !! c) as [n|] eqn:Hnc;
      destruct (rac_dtcs !! c) as [r|] eqn:Hrc; cbn;
      intros [= <-]; cbn;
      rewrite ?(Hp c p Hpc), ?(Hn c n Hnc), ?(Hr c r Hrc); try reflexivity.
    all: destruct (negb (truthy (description p)) && truthy (description n));
      cbn; rewrite ?(Hp c p Hpc); reflexivity.
Qed.

(** The claim as first read, that any later source fills an empty
    description, fails on the third source: a primary record without
    description keeps it empty although rac has one. *)
Lemma rac_does_not_fill_description : ¬ later_sources_fill_description.
Proof.
  intros H.
  apply (H {["P0420" := p0420_primary]} ∅ {["P0420" := p0420_rac]}
           "P0420" p0420_primary p0420_rac
           (with_source "primary,rac" p0420_primary)).
  - reflexivity.
  - reflexivity.
  - right. reflexivity.
  - discriminate.
  - vm_compute. reflexivity.
  - reflexivity.
Qed.

(** ** The statements at concrete inputs *)

Lemma start_while_monitoring_rejected_witness :
  Monitoring monitoring_world ∧
  (start_monitoring MONITORING_PARAMETERS MONITORING_PROFILES "ECONOMY" 20 20
     monitoring_world).1 = Returned false.
Proof.
  assert (Monitoring monitoring_world) as Hmon by (vm_compute; reflexivity).
  split; [exact Hmon|].
  destruct (start_while_monitoring_rejected MONITORING_PARAMETERS
              MONITORING_PROFILES monitoring_world "ECONOMY" 20 20 Hmon)
    as (w' & Hrun & _).
  rewrite Hrun. reflexivity.
Defined.

Lemma stop_while_idle_rejected_witness :
  Idle idle_world ∧ (stop_monitoring 20 idle_world).1 = Returned false.
Proof.
  assert (Idle idle_world) as Hidle by reflexivity.
  split; [exact Hidle|].
  destruct (stop_while_idle_rejected idle_world 20 Hidle) as (w' & Hrun & _).
  rewrite Hrun. reflexivity.
Defined.

Lemma start_unknown_profile_not_atomic_witness :
  Idle idle_world ∧
  MONITORING_PROFILES !! "RACE" = None ∧
  ∃ w', start_monitoring MONITORING_PARAMETERS MONITORING_PROFILES "RACE" 20 21
          idle_world = (Raised (KeyError "RACE"), w') ∧
        Monitoring w' ∧ active_profile (self w') = "RACE".
Proof.
  assert (Idle idle_world) as Hidle by reflexivity.
  assert (MONITORING_PROFILES !! "RACE" = None) as Hnone
    by (vm_compute; reflexivity).
  split; [exact Hidle|]. split; [exact Hnone|].
  destruct (start_unknown_profile_not_atomic MONITORING_PARAMETERS
              MONITORING_PROFILES idle_world "RACE" 20 21 Hidle Hnone)
    as (w' & Hrun & Hmon & Hap & _).
  exists w'. split; [exact Hrun|]. split; [exact Hmon|exact Hap].
Defined.




Lemma total_alerts_never_decreases_witness :
  alert_count
    (perform MONITORING_PARAMETERS MONITORING_PROFILES (StopMonitoring 70)
       monitoring_world) = alert_count monitoring_world ∧
  (alert_count monitoring_world ≤
   alert_count (perform MONITORING_PARAMETERS MONITORING_PROFILES
                  (UpdateParameters (second_ticks 0)) monitoring_world))%nat.
Proof.
  destruct (total_alerts_never_decreases MONITORING_PARAMETERS
              MONITORING_PROFILES) as (Hle & _ & _ & Hsame & _).
  split; [|apply Hle].
  apply Hsame. intros r. discriminate.
Defined.

Lemma parameter_sampled_iff_due_witness :
  Idle idle_world ∧
  (sampled_between
     (before_tick MONITORING_PARAMETERS MONITORING_PROFILES second_ticks 10
        monitoring_world)
     (before_tick MONITORING_PARAMETERS MONITORING_PROFILES second_ticks 11
        monitoring_world)
     "ENGINE_PARAMETERS.COOLANT_TEMP" ↔ (10 `mod` 5 = 0)%nat) ∧
  (sampled_between
     (before_tick MONITORING_PARAMETERS MONITORING_PROFILES second_ticks 11
        monitoring_world)
     (before_tick MONITORING_PARAMETERS MONITORING_PROFILES second_ticks 12
        monitoring_world)
     "ENGINE_PARAMETERS.COOLANT_TEMP" ↔ (11 `mod` 5 = 0)%nat).
Proof.
  assert (Idle idle_world) as Hidle by reflexivity.
  split; [exact Hidle|].
  assert (MONITORING_PROFILES !! "STANDARD" = Some standard_profile) as Hprof
    by (vm_compute; reflexivity).
  assert (first_unresolved MONITORING_PARAMETERS
            (pr_parameters standard_profile) = None)
    as Hkeys by (vm_compute; reflexivity).
  destruct (parameter_sampled_iff_due MONITORING_PARAMETERS MONITORING_PROFILES
              idle_world "STANDARD" standard_profile 10 10 second_ticks
              Hidle Hprof Hkeys)
    as (_ & _ & w1 & Hstart & _ & Hperiod).
  assert (monitoring_world = w1) as ->
    by (unfold monitoring_world; rewrite Hstart; reflexivity).
  assert (∀ n,
    sampled_between
      (before_tick MONITORING_PARAMETERS MONITORING_PROFILES second_ticks n w1)
      (before_tick MONITORING_PARAMETERS MONITORING_PROFILES second_ticks (S n) w1)
      "ENGINE_PARAMETERS.COOLANT_TEMP" ↔ (n `mod` 5 = 0)%nat) as Hsched.
  { apply (Hperiod "ENGINE_PARAMETERS.COOLANT_TEMP" coolant_definition
             5%nat 1000%Q).
    - apply elem_of_cons. right. apply elem_of_cons. by left.
    - vm_compute. reflexivity.
    - reflexivity.
    - lia.
    - intros i. reflexivity.
    - unfold Qle. cbn. lia. }
  split; apply Hsched.
Defined.

Lemma merge_fills_gaps_from_new_2007_witness :
  tagged "primary" {["P0420" := p0420_primary]} ∧
  tagged "new_2007" (∅ : gmap string DtcInfo) ∧
  tagged "rac" {["P0420" := p0420_rac]} ∧
  ∃ m, merge_dtc_databases {["P0420" := p0420_primary]} ∅
         {["P0420" := p0420_rac]} !! "P0420" = Some m ∧
       title m = title p0420_primary ∧
       description m = "" ∧
       split "," (source m) = ["primary"; "rac"].
Proof.
  assert (tagged "primary" {["P0420" := p0420_primary]}) as Hp.
  { intros c i [<- <-]%lookup_singleton_Some. reflexivity. }
  assert (tagged "new_2007" (∅ : gmap string DtcInfo)) as Hn.
  { intros c i Hc. by rewrite lookup_empty in Hc. }
  assert (tagged "rac" {["P0420" := p0420_rac]}) as Hr.
  { intros c i [<- <-]%lookup_singleton_Some. reflexivity. }
  split; [exact Hp|]. split; [exact Hn|]. split; [exact Hr|].
  destruct (merge_fills_gaps_from_new_2007 {["P0420" := p0420_primary]} ∅
              {["P0420" := p0420_rac]} "P0420" Hp Hn Hr)
    as (Hprim & _ & _ & Hprov).
  destruct (Hprim p0420_primary eq_refl)
    as (m & Hm & _ & Htitle & _ & _ & _ & Hdesc).
  exists m. split; [exact Hm|]. split; [exact Htitle|].
  split; [exact (Hdesc eq_refl)|].
  rewrite (Hprov m Hm). reflexivity.
Defined.

(** * More of the code *)

(** ** [clean_text] *)

Lemma isspace_space : isspace " " = true.
Proof. reflexivity. Qed.

Lemma sub_whitespace_spaced (text : string) : ∀ in_run,
  loosely_spaced (sub_whitespace in_run text) ∧
  (in_run = true → starts_nonspace (sub_whitespace in_run text)).
Proof.
  induction text as [|c text IH]; intros in_run; cbn; [done|].
  destruct (isspace c) eqn:Hc.
  - destruct in_run.
    + apply IH.
    + split; [|discriminate]. cbn. split; [|apply IH].
      intros _. split; [done|]. by apply IH.
  - split; [|done]. cbn. split; [|apply IH]. congruence.
Qed.

Lemma lstrip_starts_nonspace text : starts_nonspace (lstrip text).
Proof.
  induction text as [|c text IH]; cbn; [done|].
  by destruct (isspace c) eqn:Hc.
Qed.

Lemma lstrip_spaced text : loosely_spaced text → loosely_spaced (lstrip text).
Proof.
  induction text as [|c text IH]; cbn; [done|].
  intros [Hc Hrest]. destruct (isspace c) eqn:Hws; [by apply IH|].
  cbn. split; [congruence|done].
Qed.

Lemma rstrip_starts_nonspace text :
  starts_nonspace text → starts_nonspace (rstrip text).
Proof.
  destruct text as [|c text]; cbn; [done|].
  intros Hc. rewrite Hc. by destruct (rstrip text).
Qed.

Lemma rstrip_single_spaced text :
  loosely_spaced text → single_spaced (rstrip text).
Proof.
  induction text as [|c text IH]; cbn; [done|].
  intros [Hc Hrest]. specialize (IH Hrest).
  destruct (rstrip text) as [|c1 kept] eqn:Hr.
  - destruct (isspace c) eqn:Hws; cbn; [done|]. split; [congruence|done].
  - cbn. split; [|exact IH].
    intros Hws. destruct (Hc Hws) as [-> Hstart]. split; [done|].
    apply rstrip_starts_nonspace in Hstart. by rewrite Hr in Hstart.
Qed.

Lemma nonspace_chars_sub_whitespace text : ∀ in_run,
  nonspace_chars (sub_whitespace in_run text) = nonspace_chars text.
Proof.
  induction text as [|c text IH]; intros in_run; cbn; [done|].
  destruct (isspace c) eqn:Hc.
  - destruct in_run; cbn; by rewrite ?isspace_space, IH.
  - cbn. by rewrite Hc, IH.
Qed.

Lemma nonspace_chars_lstrip text :
  nonspace_chars (lstrip text) = nonspace_chars text.
Proof.
  induction text as [|c text IH]; cbn; [done|].
  destruct (isspace c) eqn:Hc; [done|]. cbn. by rewrite Hc.
Qed.

Lemma nonspace_chars_rstrip text :
  nonspace_chars (rstrip text) = nonspace_chars text.
Proof.
  induction text as [|c text IH]; cbn; [done|].
  destruct (rstrip text) as [|c1 kept] eqn:Hr.
  - cbn in IH. destruct (isspace c) eqn:Hc; cbn; by rewrite ?Hc, <- ?IH.
  - rewrite <- IH. reflexivity.
Qed.

Lemma nonspace_chars_clean_text text :
  nonspace_chars (clean_text text) = nonspace_chars text.
Proof.
  unfold clean_text. destruct (truthy text) eqn:Ht; cbn [negb].
  - unfold strip.
    by rewrite nonspace_chars_rstrip, nonspace_chars_lstrip,
      nonspace_chars_sub_whitespace.
  - apply not_truthy_iff in Ht. by subst.
Qed.

Lemma normalized_no_words text :
  normalized text → nonspace_chars text = [] → text = "".
Proof.
  destruct text as [|c text]; [done|].
  intros [Hstart _]. cbn in *. by rewrite Hstart.
Qed.

Lemma sub_whitespace_after_run text :
  starts_nonspace text → sub_whitespace true text = sub_whitespace false text.
Proof. destruct text as [|c text]; cbn; [done|]. by intros ->. Qed.

Lemma sub_whitespace_single_spaced text :
  single_spaced text → sub_whitespace false text = text.
Proof.
  induction text as [|c text IH]; cbn; [done|].
  intros [Hc Hrest]. destruct (isspace c) eqn:Hws.
  - destruct (Hc eq_refl) as [-> Hnext].
    rewrite sub_whitespace_after_run, IH; [done..|].
    by destruct text.
  - by rewrite IH.
Qed.

Lemma lstrip_starts text : starts_nonspace text → lstrip text = text.
Proof. destruct text as [|c text]; cbn; [done|]. by intros ->. Qed.

Lemma rstrip_single text : single_spaced text → rstrip text = text.
Proof.
  induction text as [|c text IH]; cbn; [done|].
  intros [Hc Hrest]. rewrite IH by done.
  destruct text as [|c1 text]; [|done].
  destruct (isspace c) eqn:Hws; [|done]. by destruct (Hc eq_refl).
Qed.

Lemma clean_text_normalized (text : string) : normalized (clean_text text).
Proof.
  unfold clean_text. destruct (truthy text); cbn [negb]; [|done].
  unfold strip, normalized.
  destruct (sub_whitespace_spaced text false) as [Hspaced _].
  split.
  - apply rstrip_starts_nonspace, lstrip_starts_nonspace.
  - by apply rstrip_single_spaced, lstrip_spaced.
Qed.

Lemma clean_text_of_normalized (text : string) :
  normalized text → clean_text text = text.
Proof.
  intros [Hstart Hsingle]. unfold clean_text.
  destruct (truthy text) eqn:Ht; cbn [negb].
  - unfold strip.
    by rewrite sub_whitespace_single_spaced, lstrip_starts, rstrip_single.
  - apply not_truthy_iff in Ht. by rewrite Ht.
Qed.

(** X1. The result of [clean_text] is in normal form: it neither begins nor
    ends with whitespace, and its only whitespace characters are single
    spaces between words.  Cleaning a second time changes nothing. *)
Theorem clean_text_normal_form (text : string) :
  normalized (clean_text text) ∧
  clean_text (clean_text text) = clean_text text.
Proof.
  split; [apply clean_text_normalized|].
  apply clean_text_of_normalized, clean_text_normalized.
Qed.

(** X2. The texts [clean_text] leaves as they are, are exactly the texts in
    normal form. *)
Theorem clean_text_fixed_points (text : string) :
  clean_text text = text ↔ normalized text.
Proof.
  split.
  - intros <-. apply clean_text_normalized.
  - apply clean_text_of_normalized.
Qed.

(** X3. [clean_text] only touches whitespace: the other characters of the
    text come out unchanged and in order; the result is empty exactly when
    the text has no such character. *)
Theorem clean_text_keeps_words (text : string) :
  nonspace_chars (clean_text text) = nonspace_chars text ∧
  (clean_text text = "" ↔ nonspace_chars text = []).
Proof.
  split; [apply nonspace_chars_clean_text|].
  rewrite <- nonspace_chars_clean_text. split.
  - by intros ->.
  - apply normalized_no_words, clean_text_normalized.
Qed.

(** ** [categorize_dtcs] *)

Lemma startswith_P_iff code :
  startswith "P" code = true ↔ ∃ rest, code = String "P" rest.
Proof.
  unfold startswith. destruct code as [|c rest]; cbn [String.prefix].
  - split; [discriminate|]. by intros [? ?].
  - destruct (Ascii.ascii_dec "P" c) as [<-|Hne].
    + split; [eauto|]. intros _. by destruct rest.
    + split; [discriminate|]. intros [rest' Heq].
      injection Heq as Hc _. by destruct Hne.
Qed.

Lemma code_without_digit code :
  startswith "P" code = true ∧ String.get 1 code = None ↔ code = "P".
Proof.
  split.
  - intros [[rest ->]%startswith_P_iff Hget]. cbn in Hget.
    destruct rest; [done|discriminate].
  - intros ->. done.
Qed.

Lemma category_in_names (digit : string) :
  default "Unknown" (categories !! digit) ∈ category_names.
Proof.
  destruct (categories !! digit) as [name|] eqn:Hlookup; cbn.
  - apply elem_of_list_to_map_2 in Hlookup.
    unfold category_names.
    repeat (apply elem_of_cons in Hlookup as [[= _ <-]|Hlookup];
            [set_solver|]).
    by apply elem_of_nil in Hlookup.
  - unfold category_names. set_solver.
Qed.

Lemma categorize_entry_raises categorized code info e :
  categorize_entry categorized (code, info) = inl e ↔
  code = "P" ∧ e = IndexError "string index out of range".
Proof.
  unfold categorize_entry, char_at.
  destruct (startswith "P" code) eqn:Hp.
  - destruct (String.get 1 code) as [c|] eqn:Hget.
    + split; [discriminate|]. intros [-> _]. discriminate.
    + split.
      * intros [= <-]. split; [|done]. by apply code_without_digit.
      * by intros [_ ->].
  - split; [discriminate|]. intros [-> _]. discriminate.
Qed.

Lemma categorize_loop_raises items : ∀ categorized,
  (∃ e, categorize_loop items categorized = inl e) ↔ "P" ∈ items.*1.
Proof.
  induction items as [|[code info] items IH]; intros categorized;
    cbn [categorize_loop].
  - split; [by intros [? ?]|by intros ?%elem_of_nil].
  - rewrite fmap_cons, elem_of_cons. cbn [fst].
    destruct (categorize_entry categorized (code, info)) as [e|categorized']
      eqn:Hentry.
    + apply categorize_entry_raises in Hentry as [-> ->].
      split; [by left|eauto].
    + rewrite (IH categorized'). split; [by right|].
      intros [Heq|Hin]; [|done]. exfalso.
      assert (categorize_entry categorized (code, info)
              = inl (IndexError "string index out of range")) as Hraise
        by (by apply categorize_entry_raises).
      congruence.
Qed.

Lemma categorize_loop_error items : ∀ categorized e,
  categorize_loop items categorized = inl e →
  e = IndexError "string index out of range".
Proof.
  induction items as [|[code info] items IH]; intros categorized e;
    cbn [categorize_loop]; [discriminate|].
  destruct (categorize_entry categorized (code, info)) as [e'|categorized']
    eqn:Hentry.
  - intros [= <-]. by apply categorize_entry_raises in Hentry as [_ ->].
  - apply IH.
Qed.

Lemma categorize_entry_returns categorized code info categorized' :
  categorize_entry categorized (code, info) = inr categorized' →
  categorized' =
    match category_of code with
    | Some category =>
        <[category := (default [] (categorized !! category) ++ [info])%list]>
          categorized
    | None => categorized
    end.
Proof.
  unfold categorize_entry, char_at, category_of.
  destruct (startswith "P" code); [|by intros [= <-]].
  destruct (String.get 1 code); [by intros [= <-]|discriminate].
Qed.

Lemma filed_under_cons c code info items :
  filed_under c ((code, info) :: items) =
    match category_of code with
    | Some category =>
        if decide (category = c) then info :: filed_under c items
        else filed_under c items
    | None => filed_under c items
    end.
Proof.
  unfold filed_under. rewrite filter_cons. cbn [fst].
  destruct (category_of code) as [category|].
  - destruct (decide (category = c)) as [->|Hne].
    + by rewrite decide_True.
    + rewrite decide_False; [done|congruence].
  - by rewrite decide_False.
Qed.

Lemma category_of_in_names code category :
  category_of code = Some category → category ∈ category_names.
Proof.
  unfold category_of. destruct (startswith "P" code); [|discriminate].
  destruct (String.get 1 code); [|discriminate].
  intros [= <-]. apply category_in_names.
Qed.

(** What lists a dictionary of categories may hold. *)
Lemma categorize_loop_filed items : ∀ categorized result,
  categorize_loop items categorized = inr result →
  (∀ c, default [] (result !! c) =
        (default [] (categorized !! c) ++ filed_under c items)%list) ∧
  ((∀ c l, categorized !! c = Some l → l ≠ [] ∧ c ∈ category_names) →
   (∀ c l, result !! c = Some l → l ≠ [] ∧ c ∈ category_names)).
Proof.
  induction items as [|[code info] items IH]; intros categorized result;
    cbn [categorize_loop].
  - intros [= <-]. split; [|done]. intros c. unfold filed_under. cbn.
    by rewrite app_nil_r.
  - destruct (categorize_entry categorized (code, info)) as [e|categorized']
      eqn:Hentry; [discriminate|].
    apply categorize_entry_returns in Hentry.
    intros Hloop. destruct (IH _ _ Hloop) as [Hlists Hshape].
    split.
    + intros c. rewrite Hlists, filed_under_cons, Hentry.
      destruct (category_of code) as [category|]; [|done].
      destruct (decide (category = c)) as [->|Hne].
      * rewrite lookup_insert_eq. cbn. by rewrite <- app_assoc.
      * by rewrite lookup_insert_ne.
    + intros Hacc. apply Hshape. intros c l. rewrite Hentry.
      destruct (category_of code) as [category|] eqn:Hcat; [|apply Hacc].
      destruct (decide (category = c)) as [<-|Hne].
      * rewrite lookup_insert_eq. intros [= <-]. split.
        -- by destruct (default [] (categorized !! category)).
        -- by apply (category_of_in_names code).
      * rewrite lookup_insert_ne by done. apply Hacc.
Qed.

(** X4. [categorize_dtcs] raises [IndexError] exactly when some key is the
    bare letter [P], a code that begins with [P] and has no second
    character; any other dictionary is categorized. *)
Theorem categorize_dtcs_raises_on_bare_P (items : list (string * DtcInfo)) :
  ((∃ e, categorize_dtcs items = inl e) ↔ "P" ∈ items.*1) ∧
  (∀ e, categorize_dtcs items = inl e →
        e = IndexError "string index out of range") ∧
  ("P" ∉ items.*1 → ∃ categorized, categorize_dtcs items = inr categorized).
Proof.
  unfold categorize_dtcs.
  split; [apply categorize_loop_raises|].
  split; [apply categorize_loop_error|].
  intros Hno. destruct (categorize_loop items ∅) as [e|categorized] eqn:Hrun.
  - exfalso. apply Hno, (categorize_loop_raises items ∅). eauto.
  - eauto.
Qed.

(** X5. When [categorize_dtcs] returns, the list of each category holds the
    records of exactly the codes that begin with [P] and whose second
    character selects that category, in the order of the dictionary; codes
    that do not begin with [P] are in no list.  No list is empty, and every
    category is one of the four named ones or [Unknown]. *)
Theorem categorize_dtcs_files_by_second_character
    (items : list (string * DtcInfo))
    (categorized : gmap string (list DtcInfo)) :
  categorize_dtcs items = inr categorized →
  (∀ c, default [] (categorized !! c) = filed_under c items) ∧
  (∀ c l, categorized !! c = Some l → l ≠ [] ∧ c ∈ category_names).
Proof.
  unfold categorize_dtcs. intros Hrun.
  destruct (categorize_loop_filed items ∅ categorized Hrun) as [Hlists Hshape].
  split.
  - intros c. rewrite Hlists. by rewrite lookup_empty.
  - apply Hshape. intros c l. by rewrite lookup_empty.
Qed.

(** ** More on [merge_dtc_databases], and [main] *)

Lemma merge_dtc_databases_is_Some (primary_dtcs new_2007_dtcs rac_dtcs
    : gmap string DtcInfo) c :
  is_Some (merge_dtc_databases primary_dtcs new_2007_dtcs rac_dtcs !! c) ↔
  is_Some (primary_dtcs !! c) ∨ is_Some (new_2007_dtcs !! c) ∨
  is_Some (rac_dtcs !! c).
Proof.
  rewrite merge_dtc_databases_lookup. cbn zeta.
  destruct (primary_dtcs !! c), (new_2007_dtcs !! c), (rac_dtcs !! c); cbn;
    split; eauto; intros [[? [=]]|[[? [=]]|[? [=]]]].
Qed.

Lemma merge_dtc_databases_dom_eq (primary_dtcs new_2007_dtcs rac_dtcs
    : gmap string DtcInfo) :
  dom (merge_dtc_databases primary_dtcs new_2007_dtcs rac_dtcs) =
  dom primary_dtcs ∪ dom new_2007_dtcs ∪ dom rac_dtcs.
Proof.
  apply set_eq. intros c.
  rewrite !elem_of_union, !elem_of_dom, merge_dtc_databases_is_Some. tauto.
Qed.

(** X6. The merged dictionary has exactly the codes of the three sources:
    no code is dropped and none is invented, so it has at most as many
    entries as the sources together. *)
Theorem merge_dtc_databases_codes (primary_dtcs new_2007_dtcs rac_dtcs
    : gmap string DtcInfo) :
  dom (merge_dtc_databases primary_dtcs new_2007_dtcs rac_dtcs) =
    dom primary_dtcs ∪ dom new_2007_dtcs ∪ dom rac_dtcs ∧
  (size (merge_dtc_databases primary_dtcs new_2007_dtcs rac_dtcs) ≤
   size primary_dtcs + size new_2007_dtcs + size rac_dtcs)%nat.
Proof.
  split; [apply merge_dtc_databases_dom_eq|].
  rewrite <- !size_dom, merge_dtc_databases_dom_eq.
  pose proof (size_union_alt (dom primary_dtcs ∪ dom new_2007_dtcs)
                (dom rac_dtcs)) as H1.
  pose proof (size_union_alt (dom primary_dtcs) (dom new_2007_dtcs)) as H2.
  assert (∀ X Y : gset string, size (X ∖ Y) ≤ size X)%nat as Hdiff.
  { intros X Y. apply subseteq_size. by intros x [? _]%elem_of_difference. }
  pose proof (Hdiff (dom rac_dtcs) (dom primary_dtcs ∪ dom new_2007_dtcs)).
  pose proof (Hdiff (dom new_2007_dtcs) (dom primary_dtcs)).
  lia.
Qed.

(** X7. If every source stores each record under the record's own code, so
    does the merged dictionary. *)
Theorem merge_dtc_databases_keyed_by_code (primary_dtcs new_2007_dtcs rac_dtcs
    : gmap string DtcInfo) :
  keyed_by_code primary_dtcs →
  keyed_by_code new_2007_dtcs →
  keyed_by_code rac_dtcs →
  keyed_by_code (merge_dtc_databases primary_dtcs new_2007_dtcs rac_dtcs).
Proof.
  intros Hp Hn Hr c info. rewrite merge_dtc_databases_lookup. cbn zeta.
  destruct (primary_dtcs !! c) as [p|] eqn:Hpc;
    destruct (new_2007_dtcs !! c) as [n|] eqn:Hnc;
    destruct (rac_dtcs !! c) as [r|] eqn:Hrc; cbn; intros [= <-]; cbn;
    eauto.
Qed.

(** X8. A dictionary merged with two empty ones comes out as it is,
    whichever of the three places it is given in. *)
Theorem merge_dtc_databases_single_source (dtcs : gmap string DtcInfo) :
  merge_dtc_databases dtcs ∅ ∅ = dtcs ∧
  merge_dtc_databases ∅ dtcs ∅ = dtcs ∧
  merge_dtc_databases ∅ ∅ dtcs = dtcs.
Proof.
  repeat split; apply map_eq; intros c;
    rewrite merge_dtc_databases_lookup; cbn zeta;
    rewrite ?lookup_empty; by destruct (dtcs !! c).
Qed.

Lemma merged_without_rac (primary_dtcs new_2007_dtcs : gmap string DtcInfo) c :
  merge_dtc_databases primary_dtcs new_2007_dtcs extract_dtcs_from_rac !! c =
    match new_2007_dtcs !! c with
    | Some n => Some (after_new_2007 (primary_dtcs !! c) n)
    | None => primary_dtcs !! c
    end.
Proof.
  rewrite merge_dtc_databases_lookup. cbn zeta.
  unfold extract_dtcs_from_rac. by rewrite lookup_empty.
Qed.

Lemma rac_not_in_two (a b : string) :
  a ≠ "rac" → b ≠ "rac" → "rac" ∉ [a; b].
Proof.
  intros Ha Hb [?|[?|?%elem_of_nil]%elem_of_cons]%elem_of_cons; congruence.
Qed.

(** X9. The dictionary [main] builds: its count of codes is the number of
    records it lists and the number of distinct codes of the first two
    sources; its records are the merged ones.  It names [rac] among its
    sources, yet with the sources tagged as the extractors tag them no record
    lists [rac] in its provenance, the third extractor returning nothing.
    [main] fails, with the [IndexError] of [categorize_dtcs], exactly when
    one of the two sources has the bare code [P]. *)
Theorem main_database_counts (primary_dtcs new_2007_dtcs : gmap string DtcInfo) :
  ((∃ e, main_database primary_dtcs new_2007_dtcs = inl e) ↔
   "P" ∈ dom primary_dtcs ∪ dom new_2007_dtcs) ∧
  ∀ db, main_database primary_dtcs new_2007_dtcs = inr db →
    db_total_codes db = length (db_codes db) ∧
    db_total_codes db = size (dom primary_dtcs ∪ dom new_2007_dtcs) ∧
    (∀ info, info ∈ db_codes db ↔
       ∃ c, merge_dtc_databases primary_dtcs new_2007_dtcs
              extract_dtcs_from_rac !! c = Some info) ∧
    "rac" ∈ db_sources db ∧
    (tagged "primary" primary_dtcs → tagged "new_2007" new_2007_dtcs →
     ∀ info, info ∈ db_codes db → "rac" ∉ split "," (source info)).
Proof.
  unfold main_database. cbn zeta.
  set (merged := merge_dtc_databases primary_dtcs new_2007_dtcs
                   extract_dtcs_from_rac).
  assert (dom merged = dom primary_dtcs ∪ dom new_2007_dtcs) as Hdom.
  { unfold merged. rewrite merge_dtc_databases_dom_eq.
    unfold extract_dtcs_from_rac. rewrite dom_empty_L. by rewrite (right_id_L ∅ (∪)). }
  assert (∀ info, info ∈ (map_to_list merged).*2 ↔
                  ∃ c, merged !! c = Some info) as Hcodes.
  { intros info. rewrite list_elem_of_fmap. split.
    - intros ([c i] & -> & Hin). apply elem_of_map_to_list in Hin. eauto.
    - intros [c Hc]. exists (c, info). split; [done|].
      by apply elem_of_map_to_list. }
  split.
  - rewrite <- Hdom.
    pose proof (categorize_loop_raises (map_to_list merged) ∅) as Hraise.
    fold (categorize_dtcs (map_to_list merged)) in Hraise.
    assert ("P" ∈ (map_to_list merged).*1 ↔ "P" ∈ dom merged) as Hkeys.
    { rewrite elem_of_dom, list_elem_of_fmap. split.
      - intros ([c i] & Hc & Hin). cbn in Hc. subst c.
        apply elem_of_map_to_list in Hin. eauto.
      - intros [i Hi]. exists ("P", i). split; [done|].
        by apply elem_of_map_to_list. }
    rewrite <- Hkeys, <- Hraise.
    destruct (categorize_dtcs (map_to_list merged)) as [e|categorized].
    + split; eauto.
    + split; intros [e He]; discriminate.
  - intros db.
    destruct (categorize_dtcs (map_to_list merged)) as [e|categorized];
      [discriminate|].
    intros [= <-]. cbn.
    split; [by rewrite length_fmap, length_map_to_list|].
    split; [by rewrite <- Hdom, size_dom|].
    split; [exact Hcodes|].
    split.
    { apply elem_of_cons. right. apply elem_of_cons. right.
      apply elem_of_cons. by left. }
    intros Hp Hn info [c Hc]%Hcodes.
    unfold merged in Hc. rewrite merged_without_rac in Hc.
    destruct (new_2007_dtcs !! c) as [n|] eqn:Hnc.
    + injection Hc as <-.
      destruct (primary_dtcs !! c) as [p|] eqn:Hpc; cbn.
      * rewrite (Hp c p Hpc).
        destruct (negb (truthy (description p)) && truthy (description n));
          cbn; rewrite ?(Hp c p Hpc); by apply rac_not_in_two.
      * rewrite (Hn c n Hnc). cbn.
        intros [?|?%elem_of_nil]%elem_of_cons; [discriminate|done].
    + rewrite (Hp c info Hc). cbn.
      intros [?|?%elem_of_nil]%elem_of_cons; [discriminate|done].
Qed.

(** ** More on the session engine *)

Lemma same_history_refl s : same_history s s.
Proof. reflexivity. Qed.

Lemma same_history_trans s1 s2 s3 :
  same_history s1 s2 → same_history s2 s3 → same_history s1 s3.
Proof. unfold same_history. congruence. Qed.

(** X10. [set_vehicle_info] stores the five fields it is given and touches
    nothing else of the monitor, in whichever state the engine is; a second
    call replaces what the first stored. *)
Theorem set_vehicle_info_only_sets_vehicle_info (w : World)
    (vin make model year engine vin' make' model' year' engine' : string) :
  let w1 := (set_vehicle_info vin make model year engine w).2 in
  let w2 := (set_vehicle_info vin' make' model' year' engine' w1).2 in
  (set_vehicle_info vin make model year engine w).1 = Returned () ∧
  vehicle_info (metadata (monitoring_data (self w1))) =
    {| vin := vin; make := make; model := model; year := year;
       engine := engine |} ∧
  same_but_vehicle_info (self w) (self w1) ∧
  self w2 = self (set_vehicle_info vin' make' model' year' engine' w).2.
Proof.
  cbn zeta.
  destruct (set_vehicle_info_run vin make model year engine w)
    as (w1 & Hrun1 & Hself1 & _).
  destruct (set_vehicle_info_run vin' make' model' year' engine' w)
    as (w1' & Hrun1' & Hself1' & _).
  rewrite Hrun1, Hrun1'. cbn [fst snd].
  destruct (set_vehicle_info_run vin' make' model' year' engine' w1)
    as (w2 & Hrun2 & Hself2 & _).
  rewrite Hrun2. cbn [snd].
  rewrite Hself2, Hself1', Hself1.
  unfold same_but_vehicle_info. cbn. by repeat split.
Qed.

(** [stop_monitoring] while monitoring, with the monitor it leaves. *)
Lemma stop_monitoring_exact (now t0 : Z) w :
  Monitoring w →
  start_time (current_session (monitoring_data (self w))) = Iso t0 →
  ∃ w',
    stop_monitoring now w = (Returned true, w') ∧
    self w' =
      with_monitoring_active false
        (with_monitoring_data (with_current_session (λ _, empty_session))
          (with_monitoring_data
             (λ d, with_historical_sessions
                     (λ h, (h ++ [current_session d])%list) d)
            (with_monitoring_data
               (with_current_session
                  (with_duration (total_seconds (now - t0))))
               (self w)))).
Proof.
  unfold Monitoring. intros Hmon Hstart.
  unfold stop_monitoring.
  unfold mbind at 1, M_bind at 1, bind at 1, get_self at 1.
  rewrite Hmon. cbn [negb].
  erewrite bind_returned; [|rewrite Hstart; reflexivity].
  do 5 (erewrite bind_returned; [|reflexivity]).
  match goal with
  | |- ∃ w', (save_monitoring_data ≫= _) ?w2 = _ ∧ _ => set (w2' := w2)
  end.
  destruct (save_monitoring_data_run w2') as (w' & Hsave & Hself & _).
  erewrite bind_returned; [|exact Hsave].
  exists w'. split; [reflexivity|]. by rewrite Hself.
Qed.

(** X11. [stop_monitoring] closes the session without clearing what the
    monitor holds in memory: current values, history per parameter, alerts,
    last-poll times, the active profile and the metadata of the document stay
    as they were, and the session appended to the historical sessions is the
    current one with its parameters, alerts and trouble codes, only the
    duration being set. *)
Theorem stop_monitoring_keeps_live_data (now t0 : Z) (w : World) :
  Monitoring w →
  start_time (current_session (monitoring_data (self w))) = Iso t0 →
  ∃ w',
    stop_monitoring now w = (Returned true, w') ∧
    same_live_data (self w) (self w') ∧
    historical_sessions (monitoring_data (self w')) =
      (historical_sessions (monitoring_data (self w)) ++
       [with_duration (total_seconds (now - t0))
          (current_session (monitoring_data (self w)))])%list.
Proof.
  intros Hmon Hstart.
  destruct (stop_monitoring_exact now t0 w Hmon Hstart) as (w' & Hrun & Hself).
  exists w'. split; [exact Hrun|]. rewrite Hself.
  unfold same_live_data. cbn. by repeat split.
Qed.

Section History.

Variable PARAMETERS : gmap string (gmap string ParamInfo).
Variable PROFILES : gmap string Profile.

Lemma set_vehicle_info_same_history vin make model year engine :
  respects same_history (set_vehicle_info vin make model year engine).
Proof.
  unfold set_vehicle_info.
  respects_with same_history_refl same_history_trans.
  all: try (apply respects_modify_self; reflexivity).
Qed.

Lemma start_monitoring_same_history profile now_meta now_session :
  respects same_history
    (start_monitoring PARAMETERS PROFILES profile now_meta now_session).
Proof.
  unfold start_monitoring, initialize_parameter.
  respects_with same_history_refl same_history_trans.
  all: try (apply respects_modify_self; reflexivity).
Qed.

(** X12. The historical sessions change in one way only: a
    [stop_monitoring] that returns [True] appends one session.
    [set_vehicle_info], [start_monitoring] however it ends (returning or
    raising), and a [stop_monitoring] that does not return [True] leave them
    as they are. *)
Theorem history_changes_only_on_stop (w : World) :
  (∀ vin make model year engine : string,
     same_history (self w)
       (self (set_vehicle_info vin make model year engine w).2)) ∧
  (∀ (profile : string) (now_meta now_session : Z),
     same_history (self w)
       (self (start_monitoring PARAMETERS PROFILES profile now_meta
                now_session w).2)) ∧
  (∀ now : Z,
     ((stop_monitoring now w).1 = Returned true →
      ∃ closed,
        historical_sessions (monitoring_data (self (stop_monitoring now w).2)) =
        (historical_sessions (monitoring_data (self w)) ++ [closed])%list) ∧
     ((stop_monitoring now w).1 ≠ Returned true →
      same_history (self w) (self (stop_monitoring now w).2))).
Proof.
  split; [intros; apply set_vehicle_info_same_history|].
  split; [intros; apply start_monitoring_same_history|].
  intros now.
  destruct (monitoring_active (self w)) eqn:Hact.
  - destruct (start_time (current_session (monitoring_data (self w))))
      as [|t0] eqn:Hst.
    + rewrite (stop_monitoring_without_start_time now w Hact Hst). cbn.
      split; [discriminate|done].
    + destruct (stop_monitoring_run now t0 w Hact Hst)
        as (w' & -> & _ & Happ & _).
      cbn. split; [eauto|done].
  - rewrite (stop_monitoring_idle_run w now Hact). cbn.
    split; [discriminate|done].
Qed.

(** X13. After a [start_monitoring] that failed on an unknown profile name
    the engine counts as monitoring: every further [start_monitoring], also
    with a valid profile, is refused with [False] and changes nothing, until
    [stop_monitoring] is called; that call returns [True] and files the
    empty session of the failed start in the historical sessions. *)
Theorem failed_start_blocks_until_stop (w : World) (unknown : string)
    (now_meta now_session : Z) :
  Idle w →
  PROFILES !! unknown = None →
  let w1 := (start_monitoring PARAMETERS PROFILES unknown now_meta
               now_session w).2 in
  (∀ (profile : string) (now_meta' now_session' : Z),
     (start_monitoring PARAMETERS PROFILES profile now_meta' now_session' w1).1
       = Returned false ∧
     self (start_monitoring PARAMETERS PROFILES profile now_meta'
             now_session' w1).2 = self w1) ∧
  (∀ now : Z,
     ∃ w2, stop_monitoring now w1 = (Returned true, w2) ∧ Idle w2 ∧
       historical_sessions (monitoring_data (self w2)) =
         (historical_sessions (monitoring_data (self w)) ++
          [with_duration (total_seconds (now - now_session))
             (fresh_session now_session)])%list).
Proof.
  intros Hidle Hnone.
  rewrite (start_monitoring_unknown_run PARAMETERS PROFILES w unknown now_meta
             now_session Hidle Hnone).
  cbn zeta. cbn [snd].
  set (w1 := opened unknown now_meta now_session w).
  assert (Monitoring w1) as Hmon by reflexivity.
  split.
  - intros profile now_meta' now_session'.
    by rewrite (start_monitoring_active_run PARAMETERS PROFILES w1 profile
                  now_meta' now_session' Hmon).
  - intros now.
    destruct (stop_monitoring_run now now_session w1 Hmon eq_refl)
      as (w2 & Hrun & Hidle2 & Happ & _).
    exists w2. split; [exact Hrun|]. split; [exact Hidle2|]. exact Happ.
Qed.

(** X14. While the engine counts as monitoring under a profile name the
    catalog does not have (the state a failed [start_monitoring] leaves),
    every [update_parameters] raises [KeyError] for that name and changes
    nothing; while idle it prints, returns [False], asks the value source
    nothing and leaves the monitor as it is. *)
Theorem update_parameters_without_profile (w : World) (r : Readings) :
  (Monitoring w → PROFILES !! active_profile (self w) = None →
   update_parameters PARAMETERS PROFILES r w =
     (Raised (KeyError (active_profile (self w))), w)) ∧
  (Idle w →
   ∃ w', update_parameters PARAMETERS PROFILES r w = (Returned false, w') ∧
         self w' = self w ∧ acquired w' = acquired w ∧
         storage w' = storage w ∧
         stdout w' = (stdout w ++ [Text "Monitoring is not active."])%list).
Proof.
  split.
  - apply update_parameters_unknown_run.
  - intros Hidle.
    rewrite (update_parameters_idle PARAMETERS PROFILES r w Hidle).
    eexists. split; [reflexivity|]. by repeat split.
Qed.

End History.

Section StartEntries.

Variable PARAMETERS : gmap string (gmap string ParamInfo).
Variable PROFILES : gmap string Profile.

(** The entries the loop of [start_monitoring] leaves in the current values
    and in the parameters of the session. *)
Lemma initialize_parameters_entries (ks : list string) : ∀ w,
  first_unresolved PARAMETERS ks = None →
  ∃ w', for_each ks (initialize_parameter PARAMETERS) w = (Returned (), w') ∧
    ∀ k,
      (k ∈ ks →
       ∃ info, resolve PARAMETERS k = Returned info ∧
         current_values (self w') !! k = Some (initial_current_value info) ∧
         parameters (current_session (monitoring_data (self w'))) !! k =
           Some (initial_session_param info)) ∧
      (k ∉ ks →
       current_values (self w') !! k = current_values (self w) !! k ∧
       parameters (current_session (monitoring_data (self w'))) !! k =
         parameters (current_session (monitoring_data (self w))) !! k).
Proof.
  induction ks as [|k0 ks IH]; intros w Hres.
  - exists w. split; [reflexivity|]. intros k. split; [|done].
    by intros ?%elem_of_nil.
  - simpl in Hres.
    destruct (resolve PARAMETERS k0) as [info0|e] eqn:Hk0; [|discriminate].
    simpl for_each.
    erewrite bind_returned; [|by apply initialize_parameter_run].
    match goal with |- ∃ w', for_each ks _ ?w0 = _ ∧ _ => set (w1 := w0) end.
    destruct (IH w1 Hres) as (w' & Hrun & Hentries).
    exists w'. split; [exact Hrun|]. intros k.
    destruct (Hentries k) as [Hin Hout]. split.
    + intros Hk. destruct (decide (k ∈ ks)) as [Hi|Hni]; [by apply Hin|].
      apply elem_of_cons in Hk as [->|?]; [|done].
      destruct (Hout Hni) as [-> ->]. exists info0. subst w1. cbn.
      by rewrite !lookup_insert_eq.
    + intros Hk.
      assert (k ≠ k0) as Hne by (intros ->; apply Hk; by left).
      assert (k ∉ ks) as Hni by (intros ?; apply Hk; by right).
      destruct (Hout Hni) as [-> ->]. subst w1. cbn.
      by rewrite !lookup_insert_ne.
Qed.

(** [start_monitoring] once its loop has gone through. *)
Lemma start_monitoring_after_loop (profile : string) prof
    (now_meta now_session : Z) w w1 :
  Idle w →
  PROFILES !! profile = Some prof →
  for_each (pr_parameters prof) (initialize_parameter PARAMETERS)
    (opened profile now_meta now_session w) = (Returned (), w1) →
  ∃ w', start_monitoring PARAMETERS PROFILES profile now_meta now_session w
          = (Returned true, w') ∧
        self w' = self w1.
Proof.
  intros Hidle Hprof Hrun.
  rewrite start_monitoring_idle by done.
  erewrite bind_returned; [|rewrite subscript_pure, Hprof; reflexivity].
  erewrite bind_returned; [|exact Hrun].
  erewrite bind_returned; [|rewrite subscript_pure, Hprof; reflexivity].
  erewrite bind_returned; [|reflexivity].
  match goal with
  | |- ∃ w', (save_monitoring_data ≫= _) ?w2 = _ ∧ _ => set (w2' := w2)
  end.
  destruct (save_monitoring_data_run w2') as (w' & Hsave & Hself & _).
  erewrite bind_returned; [|exact Hsave].
  exists w'. split; [reflexivity|]. by rewrite Hself.
Qed.

(** X15. After a successful [start_monitoring] the four per-parameter maps
    (current values, history, last-poll times, parameters of the session)
    have an entry for exactly the keys of the profile, whatever they held
    before: no value, no timestamp, status [unknown], empty history,
    last-poll time 0, name and unit from the parameter table. *)
Theorem start_monitoring_initial_entries (w : World) (profile : string)
    (prof : Profile) (now_meta now_session : Z) :
  Idle w →
  PROFILES !! profile = Some prof →
  first_unresolved PARAMETERS (pr_parameters prof) = None →
  ∃ w',
    start_monitoring PARAMETERS PROFILES profile now_meta now_session w
      = (Returned true, w') ∧
    ∀ k,
      (k ∈ pr_parameters prof →
       ∃ info, resolve PARAMETERS k = Returned info ∧
         current_values (self w') !! k = Some (initial_current_value info) ∧
         historical_data (self w') !! k = Some [] ∧
         last_poll_time (self w') !! k = Some 0%Q ∧
         parameters (current_session (monitoring_data (self w'))) !! k =
           Some (initial_session_param info)) ∧
      (k ∉ pr_parameters prof →
       current_values (self w') !! k = None ∧
       historical_data (self w') !! k = None ∧
       last_poll_time (self w') !! k = None ∧
       parameters (current_session (monitoring_data (self w'))) !! k = None).
Proof.
  intros Hidle Hprof Hres.
  destruct (initialize_parameters_entries (pr_parameters prof)
              (opened profile now_meta now_session w) Hres)
    as (w1 & Hrun & Hentries).
  destruct (initialize_parameters_run PARAMETERS (pr_parameters prof)
              (opened profile now_meta now_session w) Hres)
    as (w1' & Hrun' & _ & _ & _ & _ & _ & Hlp & Hhd & _).
  rewrite Hrun in Hrun'. injection Hrun' as <-.
  destruct (start_monitoring_after_loop profile prof now_meta now_session w w1
              Hidle Hprof Hrun) as (w' & Hstart & Hself).
  exists w'. split; [exact Hstart|]. rewrite Hself. intros k.
  destruct (Hentries k) as [Hin Hout]. split.
  - intros Hk. destruct (Hin Hk) as (info & Hinfo & Hcv & Hsp).
    exists info. rewrite Hlp, Hhd. rewrite !decide_True by done.
    split; [exact Hinfo|]. split; [exact Hcv|]. split; [reflexivity|].
    split; [reflexivity|]. exact Hsp.
  - intros Hk. destruct (Hout Hk) as [Hcv Hsp].
    rewrite Hlp, Hhd, Hcv, Hsp. rewrite !decide_False by done. cbn.
    by rewrite !lookup_empty.
Qed.

End StartEntries.

(** ** The further statements at concrete inputs *)

Lemma clean_text_fixed_points_witness :
  normalized "Engine Misfire" ∧ clean_text "Engine Misfire" = "Engine Misfire".
Proof.
  assert (normalized "Engine Misfire") as Hnorm.
  { split; [reflexivity|]. cbn.
    repeat split; intros; first [done | congruence]. }
  split; [exact Hnorm|].
  exact (proj2 (clean_text_fixed_points "Engine Misfire") Hnorm).
Defined.

Lemma categorize_dtcs_raises_on_bare_P_witness :
  "P" ∉ [("P0420", p0420_primary)].*1 ∧
  ∃ categorized, categorize_dtcs [("P0420", p0420_primary)] = inr categorized.
Proof.
  assert ("P" ∉ [("P0420", p0420_primary)].*1) as Hno.
  { cbn. intros [?|?%elem_of_nil]%elem_of_cons; [discriminate|done]. }
  split; [exact Hno|].
  destruct (categorize_dtcs_raises_on_bare_P [("P0420", p0420_primary)])
    as (_ & _ & Hreturns).
  exact (Hreturns Hno).
Defined.

Lemma categorize_dtcs_files_by_second_character_witness :
  ∃ categorized,
    categorize_dtcs [("P0420", p0420_primary); ("U0100", p0420_rac)]
      = inr categorized ∧
    default [] (categorized !! "Generic OBD-II") = [p0420_primary].
Proof.
  destruct (categorize_dtcs [("P0420", p0420_primary); ("U0100", p0420_rac)])
    as [e|categorized] eqn:Hrun.
  { apply (f_equal (λ r, match r with inl _ => true | inr _ => false end))
      in Hrun.
    vm_compute in Hrun. discriminate. }
  exists categorized. split; [reflexivity|].
  destruct (categorize_dtcs_files_by_second_character _ _ Hrun) as [Hlists _].
  rewrite Hlists. vm_compute. reflexivity.
Defined.

Lemma merge_dtc_databases_keyed_by_code_witness :
  keyed_by_code {["P0420" := p0420_primary]} ∧
  keyed_by_code (∅ : gmap string DtcInfo) ∧
  keyed_by_code {["P0420" := p0420_rac]} ∧
  keyed_by_code
    (merge_dtc_databases {["P0420" := p0420_primary]} ∅
       {["P0420" := p0420_rac]}).
Proof.
  assert (keyed_by_code {["P0420" := p0420_primary]}) as Hp.
  { intros c i [<- <-]%lookup_singleton_Some. reflexivity. }
  assert (keyed_by_code (∅ : gmap string DtcInfo)) as Hn.
  { intros c i Hc. by rewrite lookup_empty in Hc. }
  assert (keyed_by_code {["P0420" := p0420_rac]}) as Hr.
  { intros c i [<- <-]%lookup_singleton_Some. reflexivity. }
  split; [exact Hp|]. split; [exact Hn|]. split; [exact Hr|].
  exact (merge_dtc_databases_keyed_by_code _ _ _ Hp Hn Hr).
Defined.

Lemma main_database_counts_witness :
  ∃ db, main_database {["P0420" := p0420_primary]} ∅ = inr db ∧
        db_total_codes db = length (db_codes db).
Proof.
  destruct (main_database {["P0420" := p0420_primary]} ∅) as [e|db] eqn:Hrun;
    [vm_compute in Hrun; discriminate|].
  exists db. split; [reflexivity|].
  destruct (main_database_counts {["P0420" := p0420_primary]} ∅) as [_ Hdb].
  destruct (Hdb db Hrun) as [Hcount _]. exact Hcount.
Defined.

Lemma stop_monitoring_keeps_live_data_witness :
  Monitoring monitoring_world ∧
  start_time (current_session (monitoring_data (self monitoring_world))) = Iso 10 ∧
  ∃ w', stop_monitoring 70 monitoring_world = (Returned true, w') ∧
        same_live_data (self monitoring_world) (self w').
Proof.
  assert (Monitoring monitoring_world) as Hmon by (vm_compute; reflexivity).
  assert (start_time (current_session (monitoring_data (self monitoring_world)))
          = Iso 10) as Hst by (vm_compute; reflexivity).
  split; [exact Hmon|]. split; [exact Hst|].
  destruct (stop_monitoring_keeps_live_data 70 10 monitoring_world Hmon Hst)
    as (w' & Hrun & Hlive & _).
  exists w'. split; [exact Hrun|exact Hlive].
Defined.

Lemma history_changes_only_on_stop_witness :
  (stop_monitoring 70 monitoring_world).1 = Returned true ∧
  ∃ closed,
    historical_sessions
      (monitoring_data (self (stop_monitoring 70 monitoring_world).2)) =
    (historical_sessions (monitoring_data (self monitoring_world)) ++
     [closed])%list.
Proof.
  assert ((stop_monitoring 70 monitoring_world).1 = Returned true) as Hret
    by (vm_compute; reflexivity).
  split; [exact Hret|].
  destruct (history_changes_only_on_stop MONITORING_PARAMETERS
              MONITORING_PROFILES monitoring_world) as (_ & _ & Hstop).
  exact (proj1 (Hstop 70%Z) Hret).
Defined.

Lemma failed_start_blocks_until_stop_witness :
  Idle idle_world ∧
  MONITORING_PROFILES !! "RACE" = None ∧
  (start_monitoring MONITORING_PARAMETERS MONITORING_PROFILES "STANDARD" 20 20
     (start_monitoring MONITORING_PARAMETERS MONITORING_PROFILES "RACE" 10 10
        idle_world).2).1 = Returned false.
Proof.
  assert (Idle idle_world) as Hidle by reflexivity.
  assert (MONITORING_PROFILES !! "RACE" = None) as Hnone
    by (vm_compute; reflexivity).
  split; [exact Hidle|]. split; [exact Hnone|].
  destruct (failed_start_blocks_until_stop MONITORING_PARAMETERS
              MONITORING_PROFILES idle_world "RACE" 10 10 Hidle Hnone)
    as [Hrefused _].
  exact (proj1 (Hrefused "STANDARD" 20%Z 20%Z)).
Defined.

Lemma update_parameters_without_profile_witness :
  Idle idle_world ∧
  ∃ w', update_parameters MONITORING_PARAMETERS MONITORING_PROFILES
          (second_ticks 0) idle_world = (Returned false, w') ∧
        self w' = self idle_world.
Proof.
  assert (Idle idle_world) as Hidle by reflexivity.
  split; [exact Hidle|].
  destruct (update_parameters_without_profile MONITORING_PARAMETERS
              MONITORING_PROFILES idle_world (second_ticks 0)) as [_ Hidle_case].
  destruct (Hidle_case Hidle) as (w' & Hrun & Hself & _).
  exists w'. split; [exact Hrun|exact Hself].
Defined.

Lemma start_monitoring_initial_entries_witness :
  Idle idle_world ∧
  MONITORING_PROFILES !! "STANDARD" = Some standard_profile ∧
  ∃ w', start_monitoring MONITORING_PARAMETERS MONITORING_PROFILES "STANDARD"
          10 10 idle_world = (Returned true, w') ∧
        last_poll_time (self w') !! "VEHICLE_PARAMETERS.SPEED" = Some 0%Q ∧
        current_values (self w') !! "ENGINE_PARAMETERS.LOAD" = None.
Proof.
  assert (Idle idle_world) as Hidle by reflexivity.
  assert (MONITORING_PROFILES !! "STANDARD" = Some standard_profile) as Hprof
    by (vm_compute; reflexivity).
  assert (first_unresolved MONITORING_PARAMETERS
            (pr_parameters standard_profile) = None)
    as Hkeys by (vm_compute; reflexivity).
  split; [exact Hidle|]. split; [exact Hprof|].
  destruct (start_monitoring_initial_entries MONITORING_PARAMETERS
              MONITORING_PROFILES idle_world "STANDARD" standard_profile 10 10
              Hidle Hprof Hkeys) as (w' & Hstart & Hentries).
  exists w'. split; [exact Hstart|]. split.
  - destruct (Hentries "VEHICLE_PARAMETERS.SPEED") as [Hin _].
    destruct Hin as (info & _ & _ & _ & Hlp & _); [|exact Hlp].
    cbn. apply elem_of_cons. right. apply elem_of_cons. right.
    apply elem_of_cons. by left.
  - destruct (Hentries "ENGINE_PARAMETERS.LOAD") as [_ Hout].
    destruct Hout as (Hcv & _); [|exact Hcv].
    cbn. intros Hin.
    repeat (apply elem_of_cons in Hin as [Hin|Hin]; [discriminate|]).
    by apply elem_of_nil in Hin.
Defined.
